(** * PBC orchestrator: a shallow embedding of [main.go]

    The Go program keeps two global maps ([ordersDB], [workflowInstances]),
    a static catalogue of workflows ([workflowsDB]) and two HTTP handlers
    ([createOrder], [acceptDCCHandler]) that start detached executions of
    [executeWorkflowSteps].  The embedding threads the global state
    explicitly, keeps the [*WorkflowInstance] pointers as locations of a
    heap, records every [log.Printf] call as an event, and represents a
    [go f(...)] statement by the burst it spawns. *)

From Stdlib Require Import Floats.PrimFloat.
From stdpp Require Import gmap strings list fin_maps pretty.

Open Scope string_scope.
Open Scope list_scope.
Open Scope nat_scope.
Set Warnings "-inexact-float".

(** ** Data model (main.go, lines 11-35 and 66-70) *)

(** [float64] fields are binary64 floats. *)
Abbreviation float64 := PrimFloat.float (only parsing).

Record Order := mkOrder {
  OrderID : string;
  CustomerID : string;
  Amount : float64;
  Currency : string;
  CardBrand : string;
  DCCAccepted : bool;
  PaymentAmount : float64;
  PaymentCurrency : string
}.

Record WorkflowStep := mkStep {
  StepID : string;
  Service : string;
  Status : string
}.

Record Workflow := mkWorkflow {
  WorkflowID : string;
  Criteria : gmap string string;
  Steps : list WorkflowStep
}.

(** The field [Workflow] of the Go struct is [InstWorkflow] here, the name
    being taken by the record type.  [StepIndex] is a Go [int]; the program
    only ever stores [0] or [i + 1] for an index [i] of the step slice, so
    it is a natural number bounded by the slice length and no wrap-around
    is reachable. *)
Record WorkflowInstance := mkInstance {
  InstWorkflow : Workflow;
  StepIndex : nat
}.

(** The zero value of [Order], as produced by [var order Order] and by a
    map read at a missing key. *)
Definition zeroOrder : Order :=
  mkOrder "" "" 0%float "" "" false 0%float "".

(** The catalogue of lines 38-60. *)
Definition workflowsDB : list Workflow :=
  [ mkWorkflow "wf-payment-dcc-proposal"
      (<["payment_type" := "credit_card"]> (<["currency" := "USD"]> ∅))
      [ mkStep "dcc_proposal" "PBC_DCC" "pending";
        mkStep "payment_processing" "PBC_Payment" "pending" ];
    mkWorkflow "wf-payment-generic"
      (<["payment_type" := "credit_card"]> (<["currency" := "BRL"]> ∅))
      [ mkStep "payment_processing" "PBC_Payment" "pending" ] ].

(** Reading a Go [map[string]string] at a missing key yields [""]. *)
Definition criterion (c : gmap string string) (k : string) : string :=
  default "" (c !! k).

(** [findWorkflow] (lines 115-123), with the catalogue it ranges over as an
    explicit argument. *)
Fixpoint findWorkflow (db : list Workflow) (order : Order) : option Workflow :=
  match db with
  | [] => None
  | wf :: rest =>
      if bool_decide (criterion (Criteria wf) "payment_type" = "credit_card")
         && bool_decide (criterion (Criteria wf) "currency" = Currency order)
      then Some wf
      else findWorkflow rest order
  end.

(** ** Matching as the specification words it

    The specification asks for the first template, in registration order,
    all of whose criteria equal the corresponding original field of the
    order.  [orderField] names those fields by their JSON keys.  The order
    has no payment-type field: every order this server receives is a card
    payment, so the payment type of an order is ["credit_card"].  The
    original amount is a number and corresponds to no criterion value. *)
Definition orderField (order : Order) (key : string) : option string :=
  if decide (key = "payment_type") then Some "credit_card"
  else if decide (key = "currency") then Some (Currency order)
  else if decide (key = "customer_id") then Some (CustomerID order)
  else if decide (key = "card_brand") then Some (CardBrand order)
  else None.

Definition criteriaMatch (order : Order) (criteria : gmap string string) : Prop :=
  map_Forall (λ key required, orderField order key = Some required) criteria.

Definition specMatch (db : list Workflow) (order : Order) : option Workflow :=
  snd <$> list_find (λ wf, criteriaMatch order (Criteria wf)) db.

(** ** Log output

    Every [log.Printf] of the program is an event that carries the
    arguments of the call; the log is the only trace the two step executors
    ([proposeDCC], [processPayment]) leave. *)
Inductive Event :=
| LogOrderCreated (order : Order)                      (* line 92 *)
| LogNoWorkflow (orderID : string)                     (* line 97 *)
| LogStep (stepID service orderID : string)            (* line 129 *)
| LogWorkflowDone (orderID : string)                   (* line 144 *)
| LogDCCOffer (orderID : string) (amount : float64)
    (currency : string) (converted : float64)          (* line 151 *)
| LogPayment (orderID : string) (amount : float64)
    (currency : string)                                (* line 157 *)
| LogDCCAccepted (orderID : string) (newAmount : float64)
    (newCurrency : string)                             (* line 178 *)
| LogDCCRejected (orderID : string) (amount : float64)
    (currency : string)                                (* line 185 *)
| LogResume (orderID : string)                         (* line 195 *)
| LogNoInstance (orderID : string).                    (* line 198 *)

(** ** Global state

    [workflowInstances] maps an order id to a [*WorkflowInstance]; the
    pointer is a location of [heap], allocated at the end of the list. *)
Abbreviation loc := nat (only parsing).

Record State := mkState {
  ordersDB : gmap string Order;
  workflowInstances : gmap string loc;
  heap : list WorkflowInstance;
  logs : list Event
}.

Definition initState : State := mkState ∅ ∅ [] [].

Definition logPrintf (evs : list Event) (st : State) : State :=
  mkState (ordersDB st) (workflowInstances st) (heap st) (logs st ++ evs).

Definition setOrder (k : string) (o : Order) (st : State) : State :=
  mkState (<[k := o]> (ordersDB st)) (workflowInstances st) (heap st) (logs st).

Definition setInstance (k : string) (p : loc) (st : State) : State :=
  mkState (ordersDB st) (<[k := p]> (workflowInstances st)) (heap st) (logs st).

Definition deleteInstance (k : string) (st : State) : State :=
  mkState (ordersDB st) (delete k (workflowInstances st)) (heap st) (logs st).

Definition allocInstance (inst : WorkflowInstance) (st : State) : loc * State :=
  (length (heap st),
   mkState (ordersDB st) (workflowInstances st) (heap st ++ [inst]) (logs st)).

Definition storeStepIndex (p : loc) (n : nat) (st : State) : State :=
  mkState (ordersDB st) (workflowInstances st)
    (match heap st !! p with
     | Some inst => <[p := mkInstance (InstWorkflow inst) n]> (heap st)
     | None => heap st
     end)
    (logs st).

(** ** Step executors (lines 148-158) *)

Definition proposeDCC (order : Order) : list Event :=
  let convertedAmount := (PaymentAmount order * 0.85)%float in
  [LogDCCOffer (OrderID order) (PaymentAmount order) (PaymentCurrency order)
     convertedAmount].

Definition processPayment (order : Order) : list Event :=
  [LogPayment (OrderID order) (PaymentAmount order) (PaymentCurrency order)].

(** ** The step loop (lines 126-146)

    [runSteps order steps i] is the [for] loop entered at index [i] with
    [steps] the part of the slice from [i] on.  It yields the log output of
    the iterations and how the loop was left: by the [return] of line 135,
    with the value stored in [instance.StepIndex], or by exhausting the
    slice. *)
Inductive LoopExit :=
| Paused (next : nat)
| Finished.

Fixpoint runSteps (order : Order) (steps : list WorkflowStep) (i : nat)
  : list Event * LoopExit :=
  match steps with
  | [] => ([], Finished)
  | step :: rest =>
      let entry := LogStep (StepID step) (Service step) (OrderID order) in
      if bool_decide (StepID step = "dcc_proposal") then
        (entry :: proposeDCC order, Paused (i + 1))
      else
        let pay :=
          if bool_decide (Service step = "PBC_Payment")
          then processPayment order else [] in
        let '(evs, exit) := runSteps order rest (S i) in
        (entry :: pay ++ evs, exit)
  end.

(** [executeWorkflowSteps order instance]: [None] stands for the
    dereference of a pointer that was never allocated, which Go excludes. *)
Definition executeWorkflowSteps (order : Order) (instance : loc) (st : State)
  : option State :=
  match heap st !! instance with
  | None => None
  | Some inst =>
      let steps := Steps (InstWorkflow inst) in
      match runSteps order (drop (StepIndex inst) steps) (StepIndex inst) with
      | (evs, Paused next) =>
          Some (storeStepIndex instance next (logPrintf evs st))
      | (evs, Finished) =>
          Some (deleteInstance (OrderID order)
                  (logPrintf (evs ++ [LogWorkflowDone (OrderID order)]) st))
      end
  end.

(** ** HTTP handlers *)

(** What a handler wrote to its [http.ResponseWriter]. *)
Inductive Response :=
| NothingWritten                                  (* net/http then sends 200, empty body *)
| HttpError (status : nat) (msg : string)         (* http.Error *)
| HttpStatus (status : nat) (body : option Order). (* WriteHeader and Encode *)

Definition responseBody (r : Response) : option Order :=
  match r with
  | HttpStatus _ body => body
  | _ => None
  end.

(** A [go executeWorkflowSteps(order, instance)] statement: the arguments
    are evaluated by the handler, the call runs later. *)
Abbreviation Burst := (Order * loc)%type (only parsing).

(** [fmt.Sprintf("order-%d", n)] *)
Definition fmtOrderID (n : nat) : string := "order-" +:+ pretty n.

(** Lines 84-90, the block under [orderMutex]: the decoded order gets its
    id and its payment fields and is stored.  The result is the local
    variable [order] as the rest of the handler sees it. *)
Definition storeNewOrder (st : State) (decoded : Order) : State * Order :=
  let order :=
    mkOrder (fmtOrderID (size (ordersDB st) + 1))
      (CustomerID decoded) (Amount decoded) (Currency decoded)
      (CardBrand decoded) (DCCAccepted decoded)
      (Amount decoded) (Currency decoded) in
  (setOrder (OrderID order) order st, order).

(** [createOrder] (lines 76-112).  [body] is the result of decoding the
    request body into an [Order]; [None] is a decoding error.  The pointer
    read back from the map at line 108 is the one stored at line 102. *)
Definition createOrder (db : list Workflow) (st : State) (body : option Order)
  : State * Response * option Burst :=
  match body with
  | None => (st, HttpError 400 "Invalid request", None)
  | Some decoded =>
      let '(st1, order) := storeNewOrder st decoded in
      let st2 := logPrintf [LogOrderCreated order] st1 in
      match findWorkflow db order with
      | None =>
          (logPrintf [LogNoWorkflow (OrderID order)] st2, NothingWritten, None)
      | Some workflow =>
          let '(p, st3) := allocInstance (mkInstance workflow 0) st2 in
          let st4 := setInstance (OrderID order) p st3 in
          (st4, HttpStatus 201 (Some order), Some (order, p))
      end
  end.

(** The anonymous struct decoded by [acceptDCCHandler] (lines 162-167). *)
Record DCCResponse := mkDCCResponse {
  RespOrderID : string;
  Accepted : bool;
  NewAmount : float64;
  NewCurrency : string
}.

(** Lines 174-191, the block under [orderMutex]; the result is the local
    variable [order], the zero value when the id is unknown. *)
Definition applyDecision (st : State) (response : DCCResponse) : State * Order :=
  match ordersDB st !! RespOrderID response with
  | Some order =>
      if Accepted response then
        let order' :=
          mkOrder (OrderID order) (CustomerID order) (Amount order)
            (Currency order) (CardBrand order) true
            (NewAmount response) (NewCurrency response) in
        (setOrder (RespOrderID response) order'
           (logPrintf [LogDCCAccepted (RespOrderID response)
                         (NewAmount response) (NewCurrency response)] st),
         order')
      else
        let order' :=
          mkOrder (OrderID order) (CustomerID order) (Amount order)
            (Currency order) (CardBrand order) false
            (PaymentAmount order) (PaymentCurrency order) in
        (setOrder (RespOrderID response) order'
           (logPrintf [LogDCCRejected (RespOrderID response)
                         (PaymentAmount order) (PaymentCurrency order)] st),
         order')
  | None => (st, zeroOrder)
  end.

(** [acceptDCCHandler] (lines 161-202). *)
Definition acceptDCCHandler (st : State) (body : option DCCResponse)
  : State * Response * option Burst :=
  match body with
  | None => (st, HttpError 400 "Invalid request", None)
  | Some response =>
      let '(st1, order) := applyDecision st response in
      match workflowInstances st1 !! RespOrderID response with
      | Some instance =>
          (logPrintf [LogResume (RespOrderID response)] st1,
           HttpStatus 200 None, Some (order, instance))
      | None =>
          (logPrintf [LogNoInstance (RespOrderID response)] st1,
           HttpStatus 200 None, None)
      end
  end.

(** ** The server

    The server state is the global state together with the bursts that have
    been spawned and have not run yet.  A burst runs as one step: the
    interleaving of two bursts statement by statement is outside this
    model. *)
Record System := mkSystem {
  state : State;
  goroutines : list Burst
}.

Definition initSystem : System := mkSystem initState [].

Inductive Action :=
| PostCreateOrder (body : option Order)
| PostAcceptDCC (body : option DCCResponse)
| RunGoroutine (n : nat).

Definition served (sys : System) (r : State * Response * option Burst) : System :=
  mkSystem r.1.1 (goroutines sys ++ option_list r.2).

(** [None]: there is no [n]-th pending burst (or its pointer is invalid). *)
Definition execAction (db : list Workflow) (a : Action) (sys : System)
  : option System :=
  match a with
  | PostCreateOrder body => Some (served sys (createOrder db (state sys) body))
  | PostAcceptDCC body => Some (served sys (acceptDCCHandler (state sys) body))
  | RunGoroutine n =>
      match goroutines sys !! n with
      | None => None
      | Some (order, instance) =>
          match executeWorkflowSteps order instance (state sys) with
          | None => None
          | Some st => Some (mkSystem st (delete n (goroutines sys)))
          end
      end
  end.

Fixpoint exec (db : list Workflow) (acts : list Action) (sys : System)
  : option System :=
  match acts with
  | [] => Some sys
  | a :: rest =>
      match execAction db a sys with
      | None => None
      | Some sys' => exec db rest sys'
      end
  end.

Definition reachable (db : list Workflow) (sys : System) : Prop :=
  ∃ acts, exec db acts initSystem = Some sys.

(** The order id assigned by an action (line 85), if it creates an order. *)
Definition assignedID (a : Action) (sys : System) : option string :=
  match a with
  | PostCreateOrder (Some decoded) =>
      Some (OrderID (storeNewOrder (state sys) decoded).2)
  | _ => None
  end.

(** The ids assigned along a run, in order. *)
Fixpoint assignedIDs (db : list Workflow) (acts : list Action) (sys : System)
  : list string :=
  match acts with
  | [] => []
  | a :: rest =>
      option_list (assignedID a sys) ++
      match execAction db a sys with
      | None => []
      | Some sys' => assignedIDs db rest sys'
      end
  end.

(** ** Sample requests: the bodies of the repository's curl scripts *)

Definition sampleOrder : Order :=
  mkOrder "" "cliente456" 100%float "USD" "VISA" false 0%float "".

Definition euroOrder : Order :=
  mkOrder "" "cliente789" 50%float "EUR" "ELO" false 0%float "".

Definition sampleReject : DCCResponse :=
  mkDCCResponse "order-2" false 0%float "".

(** A catalogue whose only workflow settles once before the offer, to
    exercise a pause step that is not the first step. *)
Definition settleFirstDB : list Workflow :=
  [ mkWorkflow "wf-settle-then-offer"
      (<["payment_type" := "credit_card"]> (<["currency" := "USD"]> ∅))
      [ mkStep "prepayment" "PBC_Payment" "pending";
        mkStep "dcc_proposal" "PBC_DCC" "pending";
        mkStep "payment_processing" "PBC_Payment" "pending" ] ].

(** ** What a burst writes to the log, in closed form *)

(** The log lines of settlement iterations over [steps] for an order with
    the given id and payment fields: one [LogStep] per step, followed by a
    [LogPayment] when the step's service is [PBC_Payment]. *)
Definition settlementLog (orderID : string) (amount : float64)
  (currency : string) (steps : list WorkflowStep) : list Event :=
  flat_map
    (λ step,
       LogStep (StepID step) (Service step) orderID ::
       if decide (Service step = "PBC_Payment")
       then [LogPayment orderID amount currency] else [])
    steps.

Definition isPause (step : WorkflowStep) : Prop := StepID step = "dcc_proposal".

(** ** The outcome of a decision, in closed form *)

(** The order a decision leaves in the store (lines 177-188). *)
Definition decidedOrder (order : Order) (response : DCCResponse) : Order :=
  if Accepted response then
    mkOrder (OrderID order) (CustomerID order) (Amount order) (Currency order)
      (CardBrand order) true (NewAmount response) (NewCurrency response)
  else
    mkOrder (OrderID order) (CustomerID order) (Amount order) (Currency order)
      (CardBrand order) false (PaymentAmount order) (PaymentCurrency order).

Definition decisionLog (order : Order) (response : DCCResponse) : Event :=
  if Accepted response then
    LogDCCAccepted (RespOrderID response) (NewAmount response)
      (NewCurrency response)
  else
    LogDCCRejected (RespOrderID response) (PaymentAmount order)
      (PaymentCurrency order).

(** ** Invariants of the server: statements *)

(** Orders are stored under their own id, the ids in use are
    [order-1 .. order-n] for [n] the size of the store, and every
    registered pointer has been allocated. *)
Record StateInv (st : State) : Prop := mkStateInv {
  inv_key : ∀ k o, ordersDB st !! k = Some o → OrderID o = k;
  inv_dom : ∀ k, is_Some (ordersDB st !! k) →
            ∃ i, 1 ≤ i ≤ size (ordersDB st) ∧ k = fmtOrderID i;
  inv_ptr : ∀ k p, workflowInstances st !! k = Some p → p < length (heap st)
}.

Definition Inv (sys : System) : Prop :=
  StateInv (state sys) ∧
  Forall (λ g : Burst, g.2 < length (heap (state sys))) (goroutines sys).

(** What the registry and the heap keep beyond [StateInv], for a server
    that matches against the catalogue [db]: every allocated instance runs
    a workflow of the catalogue with its step index within the step slice;
    every registered id names a stored order, and its instance runs the
    workflow [findWorkflow] selects for that order; the ids [order-1] to
    [order-n] are all in use. *)
Record RegInv (db : list Workflow) (st : State) : Prop := mkRegInv {
  reg_heap : ∀ p inst, heap st !! p = Some inst →
             InstWorkflow inst ∈ db ∧
             StepIndex inst ≤ length (Steps (InstWorkflow inst));
  reg_order : ∀ k p, workflowInstances st !! k = Some p →
              ∃ o inst, ordersDB st !! k = Some o ∧ heap st !! p = Some inst ∧
                        findWorkflow db o = Some (InstWorkflow inst);
  reg_full : ∀ i, 1 ≤ i ≤ size (ordersDB st) →
             is_Some (ordersDB st !! fmtOrderID i)
}.


(** ** Two servers used as examples *)

(** The server after the first sample order was created and its first
    burst has run: [order-1] is waiting for a decision. *)
Definition waitingSystem : System :=
  Eval vm_compute in
    default initSystem
      (exec workflowsDB [PostCreateOrder (Some sampleOrder); RunGoroutine 0]
         initSystem).

(** The server after the waiting order got the decision (85.0, BRL) and its
    second burst has run: the workflow of [order-1] is complete. *)
Definition completedSystem : System :=
  Eval vm_compute in
    default initSystem
      (exec workflowsDB
         [PostCreateOrder (Some sampleOrder); RunGoroutine 0;
          PostAcceptDCC (Some (mkDCCResponse "order-1" true 85 "BRL"));
          RunGoroutine 0]
         initSystem).

(** The server after the first sample order was created and got the
    decision (85.0, BRL) before its first burst has run: both bursts are
    pending. *)
Definition decidedEarlySystem : System :=
  Eval vm_compute in
    default initSystem
      (exec workflowsDB
         [PostCreateOrder (Some sampleOrder);
          PostAcceptDCC (Some (mkDCCResponse "order-1" true 85 "BRL"))]
         initSystem).

(** The server after the waiting order got two accepted decisions in a
    row: two resumed bursts are pending. *)
Definition decidedTwiceSystem : System :=
  Eval vm_compute in
    default initSystem
      (exec workflowsDB
         [PostCreateOrder (Some sampleOrder); RunGoroutine 0;
          PostAcceptDCC (Some (mkDCCResponse "order-1" true 85 "BRL"));
          PostAcceptDCC (Some (mkDCCResponse "order-1" true 1 "EUR"))]
         initSystem).



(** A catalogue with a debit-card template and two credit-card templates
    for the same currency, to tell the first match from a later one. *)
Definition dollarTwiceDB : list Workflow :=
  [ mkWorkflow "debit"
      (<["payment_type" := "debit_card"]> (<["currency" := "USD"]> ∅)) [];
    mkWorkflow "first"
      (<["payment_type" := "credit_card"]> (<["currency" := "USD"]> ∅))
      [ mkStep "dcc_proposal" "PBC_DCC" "pending" ];
    mkWorkflow "second"
      (<["payment_type" := "credit_card"]> (<["currency" := "USD"]> ∅))
      [ mkStep "payment_processing" "PBC_Payment" "pending" ] ].

(** * Properties *)

Example sample_run :
  exec workflowsDB
    [PostCreateOrder (Some sampleOrder); RunGoroutine 0;
     PostCreateOrder (Some sampleOrder); RunGoroutine 0;
     PostAcceptDCC (Some sampleReject); RunGoroutine 0] initSystem
  = Some (mkSystem
      (mkState
         (<["order-1" := mkOrder "order-1" "cliente456" 100 "USD" "VISA" false 100 "USD"]>
            (<["order-2" := mkOrder "order-2" "cliente456" 100 "USD" "VISA" false 100 "USD"]> ∅))
         (<["order-1" := 0]> ∅)
         [mkInstance (default (mkWorkflow "" ∅ []) (workflowsDB !! 0)) 1;
          mkInstance (default (mkWorkflow "" ∅ []) (workflowsDB !! 0)) 1]
         [LogOrderCreated (mkOrder "order-1" "cliente456" 100 "USD" "VISA" false 100 "USD");
          LogStep "dcc_proposal" "PBC_DCC" "order-1";
          LogDCCOffer "order-1" 100 "USD" 85;
          LogOrderCreated (mkOrder "order-2" "cliente456" 100 "USD" "VISA" false 100 "USD");
          LogStep "dcc_proposal" "PBC_DCC" "order-2";
          LogDCCOffer "order-2" 100 "USD" 85;
          LogDCCRejected "order-2" 100 "USD";
          LogResume "order-2";
          LogStep "payment_processing" "PBC_Payment" "order-2";
          LogPayment "order-2" 100 "USD";
          LogWorkflowDone "order-2"])
      []).
Proof. vm_compute. reflexivity. Qed.

(** ** The step loop *)

Lemma runSteps_no_pause (o : Order) (steps : list WorkflowStep) (i : nat) :
  Forall (λ s, ¬ isPause s) steps →
  runSteps o steps i =
    (settlementLog (OrderID o) (PaymentAmount o) (PaymentCurrency o) steps,
     Finished).
Proof.
  intros Hall. revert i.
  induction Hall as [|s rest Hs _ IH]; intros i; [reflexivity|].
  cbn [runSteps]. rewrite bool_decide_eq_false_2 by exact Hs.
  rewrite (IH (S i)). unfold settlementLog, processPayment. cbn [flat_map].
  destruct (decide (Service s = "PBC_Payment")) as [He|Hne].
  - rewrite bool_decide_eq_true_2 by exact He. reflexivity.
  - rewrite bool_decide_eq_false_2 by exact Hne. reflexivity.
Qed.

Lemma runSteps_pause (o : Order) (pre post : list WorkflowStep)
  (p : WorkflowStep) (i : nat) :
  Forall (λ s, ¬ isPause s) pre →
  isPause p →
  runSteps o (pre ++ p :: post) i =
    (settlementLog (OrderID o) (PaymentAmount o) (PaymentCurrency o) pre ++
       [LogStep (StepID p) (Service p) (OrderID o);
        LogDCCOffer (OrderID o) (PaymentAmount o) (PaymentCurrency o)
          (PaymentAmount o * 0.85)%float],
     Paused (i + length pre + 1)).
Proof.
  intros Hall Hp. revert i.
  induction Hall as [|s rest Hs _ IH]; intros i.
  - cbn [app runSteps]. rewrite bool_decide_eq_true_2 by exact Hp.
    cbn. do 2 f_equal. lia.
  - cbn [app runSteps]. rewrite bool_decide_eq_false_2 by exact Hs.
    rewrite (IH (S i)). unfold settlementLog, processPayment. cbn [flat_map length].
    replace (S i + length rest + 1) with (i + S (length rest) + 1) by lia.
    destruct (decide (Service s = "PBC_Payment")) as [He|Hne].
    + rewrite bool_decide_eq_true_2 by exact He. reflexivity.
    + rewrite bool_decide_eq_false_2 by exact Hne. reflexivity.
Qed.

(** A burst never touches the order store, never allocates, and removes
    at most the instance of the order it runs for. *)
Lemma executeWorkflowSteps_frame (o : Order) (p : loc) (st st' : State) :
  executeWorkflowSteps o p st = Some st' →
  ordersDB st' = ordersDB st ∧
  length (heap st') = length (heap st) ∧
  (workflowInstances st' = workflowInstances st ∨
   workflowInstances st' = delete (OrderID o) (workflowInstances st)).
Proof.
  unfold executeWorkflowSteps.
  destruct (heap st !! p) as [inst|] eqn:Hp; [|discriminate].
  destruct (runSteps _ _ _) as [evs [next|]]; intros [= <-]; cbn.
  - rewrite Hp, length_insert. auto.
  - auto.
Qed.

Lemma executeWorkflowSteps_total (o : Order) (p : loc) (st : State) :
  p < length (heap st) → is_Some (executeWorkflowSteps o p st).
Proof.
  intros Hlt. unfold executeWorkflowSteps.
  destruct (lookup_lt_is_Some_2 _ _ Hlt) as [inst ->].
  destruct (runSteps _ _ _) as [evs [next|]]; eauto.
Qed.

(** ** Order creation *)

(** [findWorkflow] reads nothing of the order but its original currency. *)
Lemma findWorkflow_currency (db : list Workflow) (o1 o2 : Order) :
  Currency o1 = Currency o2 → findWorkflow db o1 = findWorkflow db o2.
Proof.
  intros He. induction db as [|wf rest IH]; [reflexivity|].
  cbn [findWorkflow]. rewrite He, IH. reflexivity.
Qed.

Lemma createOrder_matched (db : list Workflow) (st : State) (decoded : Order)
  (wf : Workflow) :
  findWorkflow db decoded = Some wf →
  let order := (storeNewOrder st decoded).2 in
  createOrder db st (Some decoded) =
    (mkState (<[OrderID order := order]> (ordersDB st))
       (<[OrderID order := length (heap st)]> (workflowInstances st))
       (heap st ++ [mkInstance wf 0])
       (logs st ++ [LogOrderCreated order]),
     HttpStatus 201 (Some order),
     Some (order, length (heap st))).
Proof.
  intros Hwf order. unfold createOrder. cbn -[fmtOrderID].
  erewrite findWorkflow_currency, Hwf; reflexivity.
Qed.

Lemma createOrder_unmatched (db : list Workflow) (st : State) (decoded : Order) :
  findWorkflow db decoded = None →
  let order := (storeNewOrder st decoded).2 in
  createOrder db st (Some decoded) =
    (mkState (<[OrderID order := order]> (ordersDB st))
       (workflowInstances st) (heap st)
       ((logs st ++ [LogOrderCreated order]) ++ [LogNoWorkflow (OrderID order)]),
     NothingWritten, None).
Proof.
  intros Hwf order. unfold createOrder. cbn -[fmtOrderID].
  erewrite findWorkflow_currency, Hwf; reflexivity.
Qed.




(** With the pause step in second position the first burst settles the
    first step, makes the offer and stops with step index 2; the third step
    runs only after the decision. *)
Example pause_in_second_position :
  exec settleFirstDB [PostCreateOrder (Some sampleOrder); RunGoroutine 0]
    initSystem
  = Some (mkSystem
      (mkState
         (<["order-1" := mkOrder "order-1" "cliente456" 100 "USD" "VISA" false 100 "USD"]> ∅)
         (<["order-1" := 0]> ∅)
         [mkInstance (default (mkWorkflow "" ∅ []) (settleFirstDB !! 0)) 2]
         [LogOrderCreated (mkOrder "order-1" "cliente456" 100 "USD" "VISA" false 100 "USD");
          LogStep "prepayment" "PBC_Payment" "order-1";
          LogPayment "order-1" 100 "USD";
          LogStep "dcc_proposal" "PBC_DCC" "order-1";
          LogDCCOffer "order-1" 100 "USD" 85])
      []).
Proof. vm_compute. reflexivity. Qed.

(** ** Invariants of the server *)

Lemma fmtOrderID_inj (a b : nat) : fmtOrderID a = fmtOrderID b → a = b.
Proof.
  unfold fmtOrderID. cbn [String.append]. intros [= He].
  exact (inj pretty a b He).
Qed.

Lemma StateInv_init : StateInv initState.
Proof.
  split; cbn.
  - intros k o H. by rewrite lookup_empty in H.
  - intros k [o H]. by rewrite lookup_empty in H.
  - intros k p H. by rewrite lookup_empty in H.
Qed.

(** The id that line 85 computes is not in use. *)
Lemma next_id_fresh (st : State) :
  StateInv st → ordersDB st !! fmtOrderID (size (ordersDB st) + 1) = None.
Proof.
  intros HI. destruct (ordersDB st !! _) as [o|] eqn:Hk; [|reflexivity].
  destruct (inv_dom st HI _ (mk_is_Some _ _ Hk)) as (i & Hi & He).
  apply fmtOrderID_inj in He. lia.
Qed.

Lemma StateInv_new_order (st : State) (decoded : Order) :
  StateInv st → StateInv (storeNewOrder st decoded).1.
Proof.
  intros HI. pose proof (next_id_fresh st HI) as Hfresh.
  split; cbn -[fmtOrderID].
  - intros k o. rewrite lookup_insert. case_decide as Hk.
    + intros [= <-]. exact Hk.
    + apply (inv_key st HI).
  - intros k. rewrite map_size_insert_None by exact Hfresh.
    rewrite lookup_insert. case_decide as Hk.
    + intros _. exists (size (ordersDB st) + 1). split; [lia|by rewrite Hk].
    + intros Hs. destruct (inv_dom st HI k Hs) as (i & Hi & He).
      exists i. split; [lia|exact He].
  - apply (inv_ptr st HI).
Qed.

Lemma StateInv_logPrintf (evs : list Event) (st : State) :
  StateInv st → StateInv (logPrintf evs st).
Proof. intros [H1 H2 H3]. split; assumption. Qed.

Lemma createOrder_inv (db : list Workflow) (st : State) (body : option Order) :
  StateInv st →
  StateInv (createOrder db st body).1.1 ∧
  length (heap st) ≤ length (heap (createOrder db st body).1.1) ∧
  (∀ g, (createOrder db st body).2 = Some g →
        g.2 < length (heap (createOrder db st body).1.1)).
Proof.
  intros HI. destruct body as [decoded|]; [|cbn; split_and!; [done|lia|done]].
  pose proof (StateInv_new_order st decoded HI) as [H1 H2 H3].
  destruct (findWorkflow db decoded) as [wf|] eqn:Hwf.
  - rewrite (createOrder_matched db st decoded wf Hwf). cbn -[fmtOrderID] in *.
    rewrite length_app. cbn [length]. split_and!; [split; cbn -[fmtOrderID]| lia |].
    + exact H1.
    + exact H2.
    + intros k p. rewrite lookup_insert, length_app. cbn [length].
      case_decide; [intros [= <-]; lia|].
      intros Hp. apply (inv_ptr st HI) in Hp. lia.
    + intros g [= <-]. cbn. lia.
  - rewrite (createOrder_unmatched db st decoded Hwf). cbn -[fmtOrderID] in *.
    split_and!; [split; cbn -[fmtOrderID]| lia | done]; assumption.
Qed.

Lemma applyDecision_known (st : State) (response : DCCResponse) (order : Order) :
  ordersDB st !! RespOrderID response = Some order →
  applyDecision st response =
    (mkState (<[RespOrderID response := decidedOrder order response]> (ordersDB st))
       (workflowInstances st) (heap st)
       (logs st ++ [decisionLog order response]),
     decidedOrder order response).
Proof.
  intros Hk. unfold applyDecision, decidedOrder, decisionLog. rewrite Hk.
  destruct (Accepted response); reflexivity.
Qed.

Lemma applyDecision_unknown (st : State) (response : DCCResponse) :
  ordersDB st !! RespOrderID response = None →
  applyDecision st response = (st, zeroOrder).
Proof. intros Hk. unfold applyDecision. rewrite Hk. reflexivity. Qed.

Lemma decidedOrder_id (order : Order) (response : DCCResponse) :
  OrderID (decidedOrder order response) = OrderID order.
Proof. unfold decidedOrder. destruct (Accepted response); reflexivity. Qed.

Lemma applyDecision_frame (st : State) (response : DCCResponse) :
  workflowInstances (applyDecision st response).1 = workflowInstances st ∧
  heap (applyDecision st response).1 = heap st.
Proof.
  destruct (ordersDB st !! RespOrderID response) as [o|] eqn:Hk.
  - rewrite (applyDecision_known st response o Hk). split; reflexivity.
  - rewrite (applyDecision_unknown st response Hk). split; reflexivity.
Qed.

Lemma StateInv_decision (st : State) (response : DCCResponse) :
  StateInv st → StateInv (applyDecision st response).1.
Proof.
  intros HI. destruct (ordersDB st !! RespOrderID response) as [o|] eqn:Hk.
  - rewrite (applyDecision_known st response o Hk). split; cbn.
    + intros k o'. rewrite lookup_insert. case_decide as He.
      * intros [= <-]. rewrite decidedOrder_id, <- He. apply (inv_key st HI _ _ Hk).
      * apply (inv_key st HI).
    + intros k. rewrite map_size_insert_Some by eauto.
      rewrite lookup_insert. case_decide as He.
      * intros _. apply (inv_dom st HI). rewrite <- He, Hk. eauto.
      * apply (inv_dom st HI).
    + apply (inv_ptr st HI).
  - rewrite (applyDecision_unknown st response Hk). exact HI.
Qed.

Lemma acceptDCCHandler_inv (st : State) (body : option DCCResponse) :
  StateInv st →
  StateInv (acceptDCCHandler st body).1.1 ∧
  length (heap st) = length (heap (acceptDCCHandler st body).1.1) ∧
  (∀ g, (acceptDCCHandler st body).2 = Some g →
        g.2 < length (heap (acceptDCCHandler st body).1.1)).
Proof.
  intros HI. destruct body as [response|]; [|cbn; split_and!; done].
  unfold acceptDCCHandler.
  pose proof (StateInv_decision st response HI) as HI'.
  pose proof (applyDecision_frame st response) as [Hreg Hheap].
  destruct (applyDecision st response) as [st1 order]. cbn in *.
  destruct (workflowInstances st1 !! RespOrderID response) as [p|] eqn:Hp; cbn.
  - split_and!; [by apply StateInv_logPrintf|by rewrite Hheap|].
    intros g [= <-]. cbn. apply (inv_ptr st1 HI' _ _ Hp).
  - split_and!; [by apply StateInv_logPrintf|by rewrite Hheap|done].
Qed.

Lemma executeWorkflowSteps_inv (o : Order) (p : loc) (st st' : State) :
  StateInv st → executeWorkflowSteps o p st = Some st' → StateInv st'.
Proof.
  intros HI Hex.
  destruct (executeWorkflowSteps_frame o p st st' Hex) as (Ho & Hh & Hr).
  split.
  - rewrite Ho. apply (inv_key st HI).
  - rewrite Ho. apply (inv_dom st HI).
  - rewrite Hh. intros k q Hq. apply (inv_ptr st HI k).
    destruct Hr as [Hr|Hr]; rewrite Hr in Hq; [exact Hq|].
    apply lookup_delete_Some in Hq. tauto.
Qed.

Lemma execAction_inv (db : list Workflow) (a : Action) (sys sys' : System) :
  Inv sys → execAction db a sys = Some sys' → Inv sys'.
Proof.
  intros [HI Hgo]. destruct a as [body|body|n]; cbn.
  - intros [= <-]. destruct (createOrder_inv db (state sys) body HI) as (H1 & H2 & H3).
    split; [exact H1|]. cbn. apply Forall_app. split.
    + eapply Forall_impl; [exact Hgo|]. cbn. intros g Hg. lia.
    + destruct (createOrder db (state sys) body) as [[st r] [g|]]; cbn in *; [|constructor].
      repeat constructor. by apply H3.
  - intros [= <-]. destruct (acceptDCCHandler_inv (state sys) body HI) as (H1 & H2 & H3).
    split; [exact H1|]. cbn. apply Forall_app. split.
    + eapply Forall_impl; [exact Hgo|]. cbn. intros g Hg. lia.
    + destruct (acceptDCCHandler (state sys) body) as [[st r] [g|]]; cbn in *; [|constructor].
      repeat constructor. by apply H3.
  - destruct (goroutines sys !! n) as [[o p]|] eqn:Hn; [|discriminate].
    destruct (executeWorkflowSteps o p (state sys)) as [st|] eqn:Hex; [|discriminate].
    intros [= <-]. split; cbn.
    + eapply executeWorkflowSteps_inv; eauto.
    + destruct (executeWorkflowSteps_frame o p _ _ Hex) as (_ & Hh & _).
      rewrite Hh. apply Forall_delete. exact Hgo.
Qed.

Lemma exec_inv (db : list Workflow) (acts : list Action) (sys sys' : System) :
  Inv sys → exec db acts sys = Some sys' → Inv sys'.
Proof.
  revert sys. induction acts as [|a rest IH]; intros sys HI; cbn.
  - intros [= <-]. exact HI.
  - destruct (execAction db a sys) as [sys1|] eqn:Ha; [|discriminate].
    apply IH. eapply execAction_inv; eauto.
Qed.

Lemma Inv_init : Inv initSystem.
Proof. split; [exact StateInv_init|constructor]. Qed.

Lemma reachable_inv (db : list Workflow) (sys : System) :
  reachable db sys → Inv sys.
Proof. intros [acts Hex]. eapply exec_inv; [exact Inv_init|exact Hex]. Qed.

(** A pending burst of a reachable server always runs: the only way for
    [execAction] to fail is to name a burst that does not exist. *)
Lemma reachable_burst_runs (db : list Workflow) (sys : System) (n : nat) :
  reachable db sys → n < length (goroutines sys) →
  is_Some (execAction db (RunGoroutine n) sys).
Proof.
  intros Hr Hn. destruct (reachable_inv db sys Hr) as [_ Hgo].
  unfold execAction.
  destruct (goroutines sys !! n) as [[o p]|] eqn:Hg.
  - pose proof (proj1 (Forall_lookup _ _) Hgo n (o, p) Hg) as Hp. cbn in Hp.
    destruct (executeWorkflowSteps_total o p (state sys) Hp) as [st ->]. eauto.
  - apply lookup_ge_None in Hg. lia.
Qed.

(** ** Decisions *)

(** A burst whose remaining steps hold no pause step runs them all and
    removes the instance registered under the order's id. *)
Lemma executeWorkflowSteps_finishes (o : Order) (p : loc) (st : State)
  (inst : WorkflowInstance) :
  heap st !! p = Some inst →
  Forall (λ s, ¬ isPause s) (drop (StepIndex inst) (Steps (InstWorkflow inst))) →
  executeWorkflowSteps o p st =
    Some (mkState (ordersDB st) (delete (OrderID o) (workflowInstances st))
            (heap st)
            (logs st ++
             settlementLog (OrderID o) (PaymentAmount o) (PaymentCurrency o)
               (drop (StepIndex inst) (Steps (InstWorkflow inst))) ++
             [LogWorkflowDone (OrderID o)])).
Proof.
  intros Hp Hall. unfold executeWorkflowSteps. rewrite Hp.
  rewrite (runSteps_no_pause o _ _ Hall). reflexivity.
Qed.

(** The handler on a known order with a registered instance. *)
Lemma acceptDCCHandler_resumes (st : State) (response : DCCResponse)
  (o : Order) (instance : loc) :
  ordersDB st !! RespOrderID response = Some o →
  workflowInstances st !! RespOrderID response = Some instance →
  acceptDCCHandler st (Some response) =
    (mkState (<[RespOrderID response := decidedOrder o response]> (ordersDB st))
       (workflowInstances st) (heap st)
       ((logs st ++ [decisionLog o response]) ++ [LogResume (RespOrderID response)]),
     HttpStatus 200 None,
     Some (decidedOrder o response, instance)).
Proof.
  intros Ho Hi. unfold acceptDCCHandler.
  rewrite (applyDecision_known st response o Ho). cbn.
  rewrite Hi. reflexivity.
Qed.

(** The handler when no instance is registered for the id. *)
Lemma acceptDCCHandler_no_instance (st : State) (response : DCCResponse) :
  workflowInstances st !! RespOrderID response = None →
  acceptDCCHandler st (Some response) =
    (logPrintf [LogNoInstance (RespOrderID response)] (applyDecision st response).1,
     HttpStatus 200 None, None).
Proof.
  intros Hi. unfold acceptDCCHandler.
  pose proof (applyDecision_frame st response) as [Hreg _].
  destruct (applyDecision st response) as [st1 order]. cbn in *.
  rewrite Hreg, Hi. reflexivity.
Qed.

Lemma waitingSystem_reachable : reachable workflowsDB waitingSystem.
Proof.
  exists [PostCreateOrder (Some sampleOrder); RunGoroutine 0].
  vm_compute. reflexivity.
Qed.

(** C2. On a reachable server, take an order stored under [k] whose
    instance is registered and has no pause step among its remaining steps.
    A decision with [accepted = true], amount [a] and currency [c] stores
    the order with payment fields [(a, c)] and the flag set, spawns the
    burst with that order, and the burst logs every remaining step, each
    payment with [(a, c)], reports the workflow complete and removes the
    instance from the registry. *)
Theorem C2_accepted_decision (db : list Workflow) (sys : System) (k : string)
  (o : Order) (instance : loc) (inst : WorkflowInstance)
  (a : float64) (c : string) :
  reachable db sys →
  ordersDB (state sys) !! k = Some o →
  workflowInstances (state sys) !! k = Some instance →
  heap (state sys) !! instance = Some inst →
  Forall (λ s, ¬ isPause s) (drop (StepIndex inst) (Steps (InstWorkflow inst))) →
  let o' :=
    mkOrder k (CustomerID o) (Amount o) (Currency o) (CardBrand o) true a c in
  ∃ st1 st2,
    acceptDCCHandler (state sys) (Some (mkDCCResponse k true a c)) =
      (st1, HttpStatus 200 None, Some (o', instance)) ∧
    ordersDB st1 !! k = Some o' ∧
    executeWorkflowSteps o' instance st1 = Some st2 ∧
    ordersDB st2 !! k = Some o' ∧
    workflowInstances st2 = delete k (workflowInstances (state sys)) ∧
    workflowInstances st2 !! k = None ∧
    logs st2 =
      logs (state sys) ++ [LogDCCAccepted k a c; LogResume k] ++
      settlementLog k a c (drop (StepIndex inst) (Steps (InstWorkflow inst))) ++
      [LogWorkflowDone k].
Proof.
  intros Hr Ho Hi Hp Hall o'.
  destruct (reachable_inv db sys Hr) as [HI _].
  pose proof (inv_key _ HI k o Ho) as Hid.
  set (response := mkDCCResponse k true a c).
  assert (decidedOrder o response = o') as Hdec.
  { unfold decidedOrder, o'. cbn. rewrite Hid. reflexivity. }
  pose proof (acceptDCCHandler_resumes (state sys) response o instance Ho Hi) as Hh.
  rewrite Hdec in Hh. cbn [RespOrderID response] in Hh.
  eexists _, _. split; [exact Hh|].
  split; [cbn; apply lookup_insert_eq|].
  split; [apply (executeWorkflowSteps_finishes o' instance _ inst); [exact Hp|exact Hall]|].
  cbn. split; [apply lookup_insert_eq|]. split; [reflexivity|].
  split; [apply lookup_delete_eq|].
  rewrite <- !app_assoc. reflexivity.
Qed.

(** An instance of C2: the decision (85.0, BRL) for the waiting order. *)
Lemma C2_accepted_decision_witness :
  ∃ st1 st2,
    acceptDCCHandler (state waitingSystem)
      (Some (mkDCCResponse "order-1" true 85 "BRL")) =
      (st1, HttpStatus 200 None,
       Some (mkOrder "order-1" "cliente456" 100 "USD" "VISA" true 85 "BRL", 0)) ∧
    ordersDB st1 !! "order-1" =
      Some (mkOrder "order-1" "cliente456" 100 "USD" "VISA" true 85 "BRL") ∧
    executeWorkflowSteps
      (mkOrder "order-1" "cliente456" 100 "USD" "VISA" true 85 "BRL") 0 st1
      = Some st2 ∧
    ordersDB st2 !! "order-1" =
      Some (mkOrder "order-1" "cliente456" 100 "USD" "VISA" true 85 "BRL") ∧
    workflowInstances st2 = delete "order-1" (workflowInstances (state waitingSystem)) ∧
    workflowInstances st2 !! "order-1" = None ∧
    logs st2 =
      logs (state waitingSystem) ++
      [LogDCCAccepted "order-1" 85 "BRL"; LogResume "order-1"] ++
      [LogStep "payment_processing" "PBC_Payment" "order-1";
       LogPayment "order-1" 85 "BRL"] ++
      [LogWorkflowDone "order-1"].
Proof.
  apply (C2_accepted_decision workflowsDB waitingSystem "order-1"
           (mkOrder "order-1" "cliente456" 100 "USD" "VISA" false 100 "USD") 0
           (mkInstance
              (mkWorkflow "wf-payment-dcc-proposal"
                 (<["payment_type" := "credit_card"]> (<["currency" := "USD"]> ∅))
                 [ mkStep "dcc_proposal" "PBC_DCC" "pending";
                   mkStep "payment_processing" "PBC_Payment" "pending" ]) 1)
           85%float "BRL").
  - exists [PostCreateOrder (Some sampleOrder); RunGoroutine 0].
    vm_compute. reflexivity.
  - vm_compute. reflexivity.
  - vm_compute. reflexivity.
  - vm_compute. reflexivity.
  - cbn. repeat constructor. unfold isPause. cbn. discriminate.
Defined.

(** C3. Under the same conditions a decision with [accepted = false],
    whatever amount and currency it carries, stores the order with its
    payment fields as they were and the flag cleared, and the burst logs
    every remaining step, each payment with the payment fields the order had
    before the decision. *)
Theorem C3_rejected_decision (db : list Workflow) (sys : System) (k : string)
  (o : Order) (instance : loc) (inst : WorkflowInstance)
  (a : float64) (c : string) :
  reachable db sys →
  ordersDB (state sys) !! k = Some o →
  workflowInstances (state sys) !! k = Some instance →
  heap (state sys) !! instance = Some inst →
  Forall (λ s, ¬ isPause s) (drop (StepIndex inst) (Steps (InstWorkflow inst))) →
  let o' :=
    mkOrder k (CustomerID o) (Amount o) (Currency o) (CardBrand o) false
      (PaymentAmount o) (PaymentCurrency o) in
  ∃ st1 st2,
    acceptDCCHandler (state sys) (Some (mkDCCResponse k false a c)) =
      (st1, HttpStatus 200 None, Some (o', instance)) ∧
    ordersDB st1 !! k = Some o' ∧
    executeWorkflowSteps o' instance st1 = Some st2 ∧
    ordersDB st2 !! k = Some o' ∧
    logs st2 =
      logs (state sys) ++
      [LogDCCRejected k (PaymentAmount o) (PaymentCurrency o); LogResume k] ++
      settlementLog k (PaymentAmount o) (PaymentCurrency o)
        (drop (StepIndex inst) (Steps (InstWorkflow inst))) ++
      [LogWorkflowDone k].
Proof.
  intros Hr Ho Hi Hp Hall o'.
  destruct (reachable_inv db sys Hr) as [HI _].
  pose proof (inv_key _ HI k o Ho) as Hid.
  set (response := mkDCCResponse k false a c).
  assert (decidedOrder o response = o') as Hdec.
  { unfold decidedOrder, o'. cbn. rewrite Hid. reflexivity. }
  pose proof (acceptDCCHandler_resumes (state sys) response o instance Ho Hi) as Hh.
  rewrite Hdec in Hh. cbn [RespOrderID response] in Hh.
  eexists _, _. split; [exact Hh|].
  split; [cbn; apply lookup_insert_eq|].
  split; [apply (executeWorkflowSteps_finishes o' instance _ inst); [exact Hp|exact Hall]|].
  cbn. split; [apply lookup_insert_eq|].
  rewrite <- !app_assoc. reflexivity.
Qed.

(** An instance of C3: a refusal that still carries (85.0, BRL). *)
Lemma C3_rejected_decision_witness :
  ∃ st1 st2,
    acceptDCCHandler (state waitingSystem)
      (Some (mkDCCResponse "order-1" false 85 "BRL")) =
      (st1, HttpStatus 200 None,
       Some (mkOrder "order-1" "cliente456" 100 "USD" "VISA" false 100 "USD", 0)) ∧
    ordersDB st1 !! "order-1" =
      Some (mkOrder "order-1" "cliente456" 100 "USD" "VISA" false 100 "USD") ∧
    executeWorkflowSteps
      (mkOrder "order-1" "cliente456" 100 "USD" "VISA" false 100 "USD") 0 st1
      = Some st2 ∧
    ordersDB st2 !! "order-1" =
      Some (mkOrder "order-1" "cliente456" 100 "USD" "VISA" false 100 "USD") ∧
    logs st2 =
      logs (state waitingSystem) ++
      [LogDCCRejected "order-1" 100 "USD"; LogResume "order-1"] ++
      [LogStep "payment_processing" "PBC_Payment" "order-1";
       LogPayment "order-1" 100 "USD"] ++
      [LogWorkflowDone "order-1"].
Proof.
  apply (C3_rejected_decision workflowsDB waitingSystem "order-1"
           (mkOrder "order-1" "cliente456" 100 "USD" "VISA" false 100 "USD") 0
           (mkInstance
              (mkWorkflow "wf-payment-dcc-proposal"
                 (<["payment_type" := "credit_card"]> (<["currency" := "USD"]> ∅))
                 [ mkStep "dcc_proposal" "PBC_DCC" "pending";
                   mkStep "payment_processing" "PBC_Payment" "pending" ]) 1)
           85%float "BRL").
  - exists [PostCreateOrder (Some sampleOrder); RunGoroutine 0].
    vm_compute. reflexivity.
  - vm_compute. reflexivity.
  - vm_compute. reflexivity.
  - vm_compute. reflexivity.
  - cbn. repeat constructor. unfold isPause. cbn. discriminate.
Defined.

(** The specification asks that a decision arriving after the instance was
    removed leave the stored order unchanged.  The handler does not: a
    second accepted decision for the completed [order-1] overwrites its
    payment fields. *)
Lemma C4_late_decision_counterexample :
  exec workflowsDB
    [PostCreateOrder (Some sampleOrder); RunGoroutine 0;
     PostAcceptDCC (Some (mkDCCResponse "order-1" true 85 "BRL"));
     RunGoroutine 0] initSystem = Some completedSystem ∧
  workflowInstances (state completedSystem) !! "order-1" = None ∧
  ordersDB (state completedSystem) !! "order-1" =
    Some (mkOrder "order-1" "cliente456" 100 "USD" "VISA" true 85 "BRL") ∧
  ordersDB
    (acceptDCCHandler (state completedSystem)
       (Some (mkDCCResponse "order-1" true 1 "EUR"))).1.1 !! "order-1" =
    Some (mkOrder "order-1" "cliente456" 100 "USD" "VISA" true 1 "EUR") ∧
  ordersDB
    (acceptDCCHandler (state completedSystem)
       (Some (mkDCCResponse "order-1" true 1 "EUR"))).1.1
  ≠ ordersDB (state completedSystem).
Proof.
  split; [vm_compute; reflexivity|].
  split; [vm_compute; reflexivity|].
  split; [vm_compute; reflexivity|].
  split; [vm_compute; reflexivity|].
  intros He. apply (f_equal (λ m, PaymentCurrency <$> m !! "order-1")) in He.
  vm_compute in He. discriminate He.
Qed.

(** C4, as the code has it.  A decision for a stored order with no
    registered instance is answered with status 200; it spawns no burst,
    leaves the registry, the heap and every other order as they were and
    logs the decision and the missing instance.  The order itself keeps its
    id and its original fields, but its execution fields are written as for
    any decision: the flag becomes the decision, and an accepted decision
    replaces the payment amount and currency. *)
Theorem C4_late_decision (st : State) (response : DCCResponse) (o : Order) :
  ordersDB st !! RespOrderID response = Some o →
  workflowInstances st !! RespOrderID response = None →
  ∃ st1 o1,
    acceptDCCHandler st (Some response) = (st1, HttpStatus 200 None, None) ∧
    workflowInstances st1 = workflowInstances st ∧
    heap st1 = heap st ∧
    logs st1 =
      logs st ++
      [(if Accepted response
        then LogDCCAccepted (RespOrderID response) (NewAmount response)
               (NewCurrency response)
        else LogDCCRejected (RespOrderID response) (PaymentAmount o)
               (PaymentCurrency o));
       LogNoInstance (RespOrderID response)] ∧
    ordersDB st1 !! RespOrderID response = Some o1 ∧
    (∀ k, k ≠ RespOrderID response → ordersDB st1 !! k = ordersDB st !! k) ∧
    OrderID o1 = OrderID o ∧ CustomerID o1 = CustomerID o ∧
    Amount o1 = Amount o ∧ Currency o1 = Currency o ∧
    CardBrand o1 = CardBrand o ∧
    DCCAccepted o1 = Accepted response ∧
    PaymentAmount o1 =
      (if Accepted response then NewAmount response else PaymentAmount o) ∧
    PaymentCurrency o1 =
      (if Accepted response then NewCurrency response else PaymentCurrency o).
Proof.
  intros Ho Hi.
  rewrite (acceptDCCHandler_no_instance st response Hi).
  rewrite (applyDecision_known st response o Ho).
  eexists _, (decidedOrder o response). split; [reflexivity|]. cbn.
  split; [reflexivity|]. split; [reflexivity|].
  split; [rewrite <- app_assoc; unfold decisionLog; destruct (Accepted response); reflexivity|].
  split; [apply lookup_insert_eq|].
  split; [intros k Hk; apply lookup_insert_ne; congruence|].
  unfold decidedOrder. destruct (Accepted response); cbn; repeat split.
Qed.

(** An instance of C4: a late refusal for the completed [order-1]. *)
Lemma C4_late_decision_witness :
  ∃ st1 o1,
    acceptDCCHandler (state completedSystem)
      (Some (mkDCCResponse "order-1" false 0 "")) =
      (st1, HttpStatus 200 None, None) ∧
    workflowInstances st1 = workflowInstances (state completedSystem) ∧
    heap st1 = heap (state completedSystem) ∧
    logs st1 =
      logs (state completedSystem) ++
      [LogDCCRejected "order-1" 85 "BRL"; LogNoInstance "order-1"] ∧
    ordersDB st1 !! "order-1" = Some o1 ∧
    (∀ k, k ≠ "order-1" →
          ordersDB st1 !! k = ordersDB (state completedSystem) !! k) ∧
    OrderID o1 = "order-1" ∧ CustomerID o1 = "cliente456" ∧
    Amount o1 = 100%float ∧ Currency o1 = "USD" ∧ CardBrand o1 = "VISA" ∧
    DCCAccepted o1 = false ∧ PaymentAmount o1 = 85%float ∧
    PaymentCurrency o1 = "BRL".
Proof.
  apply (C4_late_decision (state completedSystem)
           (mkDCCResponse "order-1" false 0 "")
           (mkOrder "order-1" "cliente456" 100 "USD" "VISA" true 85 "BRL")).
  - vm_compute. reflexivity.
  - vm_compute. reflexivity.
Defined.

(** The order store after each handler. *)
Lemma acceptDCCHandler_ordersDB (st : State) (body : option DCCResponse) :
  ordersDB (acceptDCCHandler st body).1.1 =
    match body with
    | None => ordersDB st
    | Some response =>
        match ordersDB st !! RespOrderID response with
        | Some o => <[RespOrderID response := decidedOrder o response]> (ordersDB st)
        | None => ordersDB st
        end
    end.
Proof.
  destruct body as [response|]; [|reflexivity]. unfold acceptDCCHandler.
  destruct (ordersDB st !! RespOrderID response) as [o|] eqn:Ho.
  - rewrite (applyDecision_known st response o Ho). cbn.
    destruct (workflowInstances st !! RespOrderID response); reflexivity.
  - rewrite (applyDecision_unknown st response Ho).
    destruct (workflowInstances st !! RespOrderID response); reflexivity.
Qed.

Lemma createOrder_ordersDB (db : list Workflow) (st : State) (body : option Order) :
  ordersDB (createOrder db st body).1.1 =
    match body with
    | None => ordersDB st
    | Some decoded =>
        <[fmtOrderID (size (ordersDB st) + 1) := (storeNewOrder st decoded).2]>
          (ordersDB st)
    end.
Proof.
  destruct body as [decoded|]; [|reflexivity].
  destruct (findWorkflow db decoded) as [wf|] eqn:Hwf.
  - rewrite (createOrder_matched db st decoded wf Hwf). reflexivity.
  - rewrite (createOrder_unmatched db st decoded Hwf). reflexivity.
Qed.

(** C8. Whatever the decision request (accepted, refused, for this order
    or another, or undecodable), an order in the store is still there after
    the handler, with the same id, customer id, original amount, original
    currency and card brand, and no burst run afterwards changes it. *)
Theorem C8_decision_keeps_original_fields (st : State)
  (body : option DCCResponse) (k : string) (o : Order) :
  ordersDB st !! k = Some o →
  ∃ o1,
    ordersDB (acceptDCCHandler st body).1.1 !! k = Some o1 ∧
    OrderID o1 = OrderID o ∧ CustomerID o1 = CustomerID o ∧
    Amount o1 = Amount o ∧ Currency o1 = Currency o ∧
    CardBrand o1 = CardBrand o ∧
    ∀ order instance st2,
      executeWorkflowSteps order instance (acceptDCCHandler st body).1.1
        = Some st2 →
      ordersDB st2 !! k = Some o1.
Proof.
  intros Ho.
  assert (∃ o1, ordersDB (acceptDCCHandler st body).1.1 !! k = Some o1 ∧
                OrderID o1 = OrderID o ∧ CustomerID o1 = CustomerID o ∧
                Amount o1 = Amount o ∧ Currency o1 = Currency o ∧
                CardBrand o1 = CardBrand o) as (o1 & Hk & Hf).
  { rewrite acceptDCCHandler_ordersDB.
    destruct body as [response|]; [|by exists o].
    destruct (ordersDB st !! RespOrderID response) as [o'|] eqn:Ho'; [|by exists o].
    destruct (decide (RespOrderID response = k)) as [He|Hne].
    - rewrite He in Ho'. rewrite Ho in Ho'. injection Ho' as <-.
      exists (decidedOrder o response). rewrite He, lookup_insert_eq.
      unfold decidedOrder. destruct (Accepted response); cbn; repeat split.
    - exists o. rewrite lookup_insert_ne by exact Hne. by repeat split. }
  exists o1. split; [exact Hk|]. destruct Hf as (?&?&?&?&?).
  repeat (split; [assumption|]).
  intros order instance st2 Hex.
  destruct (executeWorkflowSteps_frame _ _ _ _ Hex) as (-> & _). exact Hk.
Qed.

(** An instance of C8: the decision (85.0, BRL) for the waiting order. *)
Lemma C8_decision_keeps_original_fields_witness :
  ∃ o1,
    ordersDB
      (acceptDCCHandler (state waitingSystem)
         (Some (mkDCCResponse "order-1" true 85 "BRL"))).1.1 !! "order-1"
      = Some o1 ∧
    OrderID o1 = "order-1" ∧ CustomerID o1 = "cliente456" ∧
    Amount o1 = 100%float ∧ Currency o1 = "USD" ∧ CardBrand o1 = "VISA" ∧
    ∀ order instance st2,
      executeWorkflowSteps order instance
        (acceptDCCHandler (state waitingSystem)
           (Some (mkDCCResponse "order-1" true 85 "BRL"))).1.1 = Some st2 →
      ordersDB st2 !! "order-1" = Some o1.
Proof.
  apply (C8_decision_keeps_original_fields (state waitingSystem)
           (Some (mkDCCResponse "order-1" true 85 "BRL")) "order-1"
           (mkOrder "order-1" "cliente456" 100 "USD" "VISA" false 100 "USD")).
  vm_compute. reflexivity.
Defined.

(** ** Order ids *)

(** No action removes an order from the store. *)
Lemma execAction_keeps_orders (db : list Workflow) (a : Action)
  (sys sys' : System) (k : string) :
  execAction db a sys = Some sys' →
  is_Some (ordersDB (state sys) !! k) → is_Some (ordersDB (state sys') !! k).
Proof.
  destruct a as [body|body|n]; cbn.
  - intros [= <-] Hk. cbn. rewrite createOrder_ordersDB.
    destruct body; [|exact Hk]. apply lookup_insert_is_Some'. by right.
  - intros [= <-] Hk. cbn. rewrite acceptDCCHandler_ordersDB.
    destruct body as [r|]; [|exact Hk].
    destruct (ordersDB (state sys) !! RespOrderID r); [|exact Hk].
    apply lookup_insert_is_Some'. by right.
  - destruct (goroutines sys !! n) as [[o p]|]; [|discriminate].
    destruct (executeWorkflowSteps o p (state sys)) as [st|] eqn:Hex; [|discriminate].
    intros [= <-]. cbn.
    destruct (executeWorkflowSteps_frame _ _ _ _ Hex) as (-> & _). done.
Qed.

Lemma exec_keeps_orders (db : list Workflow) (acts : list Action)
  (sys sys' : System) (k : string) :
  exec db acts sys = Some sys' →
  is_Some (ordersDB (state sys) !! k) → is_Some (ordersDB (state sys') !! k).
Proof.
  revert sys. induction acts as [|a rest IH]; intros sys; cbn.
  - intros [= <-]. done.
  - destruct (execAction db a sys) as [sys1|] eqn:Ha; [|discriminate].
    intros Hex Hk. apply (IH sys1 Hex). eapply execAction_keeps_orders; eauto.
Qed.

(** An action that assigns an id stores an order under it. *)
Lemma assignedID_stored (db : list Workflow) (a : Action) (sys sys' : System)
  (id : string) :
  assignedID a sys = Some id →
  execAction db a sys = Some sys' →
  is_Some (ordersDB (state sys') !! id).
Proof.
  destruct a as [[decoded|]|body|n]; try discriminate.
  unfold assignedID, execAction. intros Hid Hex.
  assert (sys' = served sys (createOrder db (state sys) (Some decoded))) as ->
    by congruence.
  assert (id = OrderID (storeNewOrder (state sys) decoded).2) as ->
    by congruence.
  unfold served. cbn [state]. rewrite createOrder_ordersDB.
  cbn -[fmtOrderID]. rewrite lookup_insert_eq. eauto.
Qed.

Lemma assignedID_fresh (a : Action) (sys : System) (id : string) :
  Inv sys → assignedID a sys = Some id → ordersDB (state sys) !! id = None.
Proof.
  intros [HI _]. destruct a as [[decoded|]|body|n]; try discriminate.
  cbn -[fmtOrderID]. intros [= <-]. by apply next_id_fresh.
Qed.

(** The ids assigned along a run are pairwise distinct and differ from
    every id already in use when the run starts. *)
Lemma assignedIDs_fresh (db : list Workflow) (acts : list Action) (sys : System) :
  Inv sys →
  NoDup (assignedIDs db acts sys) ∧
  Forall (λ id, ordersDB (state sys) !! id = None) (assignedIDs db acts sys).
Proof.
  revert sys. induction acts as [|a rest IH]; intros sys HI; cbn [assignedIDs].
  - split; constructor.
  - destruct (execAction db a sys) as [sys1|] eqn:Ha.
    + destruct (IH sys1 (execAction_inv db a sys sys1 HI Ha)) as [Hnd Hfr].
      assert (Forall (λ id, ordersDB (state sys) !! id = None)
                (assignedIDs db rest sys1)) as Hfr0.
      { eapply Forall_impl; [exact Hfr|]. cbn. intros id Hid.
        destruct (ordersDB (state sys) !! id) eqn:Hk; [|reflexivity].
        destruct (execAction_keeps_orders db a sys sys1 id Ha) as [o' Ho']; [eauto|].
        congruence. }
      destruct (assignedID a sys) as [id|] eqn:Hid; cbn [option_list app].
      * split.
        -- constructor; [|exact Hnd]. intros Hin.
           pose proof (proj1 (Forall_forall _ _) Hfr id Hin) as Hnone.
           destruct (assignedID_stored db a sys sys1 id Hid Ha) as [o' Ho'].
           cbn in Hnone. congruence.
        -- constructor; [|exact Hfr0]. by apply (assignedID_fresh a).
      * split; assumption.
    + rewrite app_nil_r. destruct (assignedID a sys) as [id|] eqn:Hid; cbn.
      * split; [apply NoDup_singleton|]. repeat constructor.
        by apply (assignedID_fresh a).
      * split; constructor.
Qed.

(** Every id assigned along a run names a stored order when the run ends. *)
Lemma assignedIDs_stored (db : list Workflow) (acts : list Action)
  (sys sys' : System) :
  exec db acts sys = Some sys' →
  Forall (λ id, is_Some (ordersDB (state sys') !! id)) (assignedIDs db acts sys).
Proof.
  revert sys. induction acts as [|a rest IH]; intros sys; cbn [assignedIDs exec].
  - constructor.
  - destruct (execAction db a sys) as [sys1|] eqn:Ha; [|discriminate].
    intros Hex. apply Forall_app. split; [|by apply IH].
    destruct (assignedID a sys) as [id|] eqn:Hid; cbn; [|constructor].
    repeat constructor. apply (exec_keeps_orders db rest sys1 sys' id Hex).
    eapply assignedID_stored; eauto.
Qed.

Lemma exec_app (db : list Workflow) (acts1 acts2 : list Action) (sys : System) :
  exec db (acts1 ++ acts2) sys =
    match exec db acts1 sys with
    | Some sys1 => exec db acts2 sys1
    | None => None
    end.
Proof.
  revert sys. induction acts1 as [|a rest IH]; intros sys; cbn; [reflexivity|].
  destruct (execAction db a sys); [apply IH|reflexivity].
Qed.

(** C9. Along any run of the server from the empty store (requests of both
    kinds and bursts, in any order) the ids assigned to the created orders
    are pairwise distinct; and once the run has gone on, by [acts2], every
    id assigned during [acts1] still names a stored order whose [OrderID]
    field is that id. *)
Theorem C9_order_ids_distinct_and_kept (db : list Workflow)
  (acts1 acts2 : list Action) (sys : System) :
  exec db (acts1 ++ acts2) initSystem = Some sys →
  NoDup (assignedIDs db (acts1 ++ acts2) initSystem) ∧
  Forall (λ id, ∃ o, ordersDB (state sys) !! id = Some o ∧ OrderID o = id)
    (assignedIDs db acts1 initSystem).
Proof.
  intros Hex. split; [apply assignedIDs_fresh, Inv_init|].
  rewrite exec_app in Hex.
  destruct (exec db acts1 initSystem) as [sys1|] eqn:H1; [|discriminate].
  pose proof (exec_inv db _ _ _ Inv_init H1) as HI1.
  destruct (exec_inv db _ _ _ HI1 Hex) as [HI _].
  eapply Forall_impl; [exact (assignedIDs_stored db acts1 _ _ H1)|].
  cbn. intros id Hid.
  destruct (exec_keeps_orders db acts2 sys1 sys id Hex Hid) as [o Ho].
  exists o. split; [exact Ho|]. apply (inv_key _ HI _ _ Ho).
Qed.

(** An instance of C9: three orders, of which the third matches no
    workflow, then a decision for the first. *)
Lemma C9_order_ids_distinct_and_kept_witness :
  NoDup ["order-1"; "order-2"; "order-3"] ∧
  Forall
    (λ id, ∃ o,
       ordersDB
         (state
            (default initSystem
               (exec workflowsDB
                  ([PostCreateOrder (Some sampleOrder);
                    PostCreateOrder (Some sampleOrder);
                    PostCreateOrder (Some euroOrder)] ++
                   [RunGoroutine 1; RunGoroutine 0;
                    PostAcceptDCC (Some (mkDCCResponse "order-1" true 85 "BRL"));
                    RunGoroutine 0])
                  initSystem))) !! id = Some o ∧ OrderID o = id)
    ["order-1"; "order-2"; "order-3"].
Proof.
  apply (C9_order_ids_distinct_and_kept workflowsDB
           [PostCreateOrder (Some sampleOrder);
            PostCreateOrder (Some sampleOrder);
            PostCreateOrder (Some euroOrder)]
           [RunGoroutine 1; RunGoroutine 0;
            PostAcceptDCC (Some (mkDCCResponse "order-1" true 85 "BRL"));
            RunGoroutine 0]).
  vm_compute. reflexivity.
Defined.

(** ** The created order *)

(** The specification has [CreateOrder] return the created order for every
    valid input.  For an order that matches no workflow the handler stores
    the order, returns at line 98 and writes no response. *)
Lemma C6_unmatched_order_not_returned :
  findWorkflow workflowsDB euroOrder = None ∧
  (createOrder workflowsDB initState (Some euroOrder)).1.2 = NothingWritten ∧
  responseBody (createOrder workflowsDB initState (Some euroOrder)).1.2 = None ∧
  ordersDB (createOrder workflowsDB initState (Some euroOrder)).1.1 !! "order-1" =
    Some (mkOrder "order-1" "cliente789" 50 "EUR" "ELO" false 50 "EUR").
Proof. repeat split; vm_compute; reflexivity. Qed.

(** C6, as the code has it.  For every decoded request body the order that
    [createOrder] builds has its payment amount and currency equal to the
    original amount and currency of the request; that order is stored under
    its id and logged, and whenever a workflow matches it is the body of
    the 201 response. *)
Theorem C6_created_order_payment_fields (db : list Workflow) (st : State)
  (decoded : Order) :
  let order := (storeNewOrder st decoded).2 in
  let result := createOrder db st (Some decoded) in
  Amount order = Amount decoded ∧ Currency order = Currency decoded ∧
  PaymentAmount order = Amount decoded ∧
  PaymentCurrency order = Currency decoded ∧
  ordersDB result.1.1 !! OrderID order = Some order ∧
  LogOrderCreated order ∈ logs result.1.1 ∧
  (∀ o, responseBody result.1.2 = Some o → o = order) ∧
  (∀ wf, findWorkflow db decoded = Some wf →
         result.1.2 = HttpStatus 201 (Some order)).
Proof.
  intros order result. do 4 (split; [reflexivity|]).
  subst result. destruct (findWorkflow db decoded) as [wf|] eqn:Hwf.
  - rewrite (createOrder_matched db st decoded wf Hwf). fold order. cbn [fst snd ordersDB logs].
    split; [apply lookup_insert_eq|]. split; [set_solver|].
    split; [intros o [= <-]; reflexivity|]. intros _ _. reflexivity.
  - rewrite (createOrder_unmatched db st decoded Hwf). fold order. cbn [fst snd ordersDB logs].
    split; [apply lookup_insert_eq|]. split; [set_solver|].
    split; [intros o [=]|]. intros wf [=].
Qed.

(** An instance of C6: the first sample order on the empty server. *)
Lemma C6_created_order_payment_fields_witness :
  let order := mkOrder "order-1" "cliente456" 100 "USD" "VISA" false 100 "USD" in
  let result := createOrder workflowsDB initState (Some sampleOrder) in
  Amount order = 100%float ∧ Currency order = "USD" ∧
  PaymentAmount order = 100%float ∧ PaymentCurrency order = "USD" ∧
  ordersDB result.1.1 !! "order-1" = Some order ∧
  LogOrderCreated order ∈ logs result.1.1 ∧
  (∀ o, responseBody result.1.2 = Some o → o = order) ∧
  (∀ wf, findWorkflow workflowsDB sampleOrder = Some wf →
         result.1.2 = HttpStatus 201 (Some order)).
Proof.
  exact (C6_created_order_payment_fields workflowsDB initState sampleOrder).
Defined.

(** C7. When no workflow matches the decoded order, [createOrder] stores
    the order, logs the creation and the missing workflow, and stops: the
    registry and the heap are as before, no burst is spawned, and nothing,
    in particular no error, is written to the response. *)
Theorem C7_no_workflow_no_instance (db : list Workflow) (st : State)
  (decoded : Order) :
  findWorkflow db decoded = None →
  let order := (storeNewOrder st decoded).2 in
  ∃ st1,
    createOrder db st (Some decoded) = (st1, NothingWritten, None) ∧
    workflowInstances st1 = workflowInstances st ∧
    heap st1 = heap st ∧
    ordersDB st1 !! OrderID order = Some order ∧
    logs st1 =
      logs st ++ [LogOrderCreated order; LogNoWorkflow (OrderID order)].
Proof.
  intros Hwf order. rewrite (createOrder_unmatched db st decoded Hwf). fold order.
  eexists. split; [reflexivity|]. cbn [workflowInstances heap ordersDB logs].
  split; [reflexivity|]. split; [reflexivity|].
  split; [apply lookup_insert_eq|]. rewrite <- app_assoc. reflexivity.
Qed.

(** An instance of C7: an order in EUR on the empty server. *)
Lemma C7_no_workflow_no_instance_witness :
  ∃ st1,
    createOrder workflowsDB initState (Some euroOrder) =
      (st1, NothingWritten, None) ∧
    workflowInstances st1 = workflowInstances initState ∧
    heap st1 = heap initState ∧
    ordersDB st1 !! "order-1" =
      Some (mkOrder "order-1" "cliente789" 50 "EUR" "ELO" false 50 "EUR") ∧
    logs st1 =
      logs initState ++
      [LogOrderCreated (mkOrder "order-1" "cliente789" 50 "EUR" "ELO" false 50 "EUR");
       LogNoWorkflow "order-1"].
Proof.
  apply (C7_no_workflow_no_instance workflowsDB initState euroOrder).
  vm_compute. reflexivity.
Defined.

(** C10. The order stored by [createOrder] is the decoded one with three
    fields overwritten: the id, the payment amount and the payment
    currency.  The customer id, the original amount and currency, the card
    brand and the [dcc_accepted] flag are stored as decoded, so a request
    body with [dcc_accepted] set yields a stored order with the flag set. *)
Theorem C10_decoded_fields_stored_as_given (db : list Workflow) (st : State)
  (decoded : Order) :
  ordersDB (createOrder db st (Some decoded)).1.1
    !! fmtOrderID (size (ordersDB st) + 1) =
  Some (mkOrder (fmtOrderID (size (ordersDB st) + 1))
          (CustomerID decoded) (Amount decoded) (Currency decoded)
          (CardBrand decoded) (DCCAccepted decoded)
          (Amount decoded) (Currency decoded)).
Proof. rewrite createOrder_ordersDB. apply lookup_insert_eq. Qed.

Example createOrder_keeps_decoded_flag :
  ordersDB
    (createOrder workflowsDB initState
       (Some (mkOrder "abc" "cliente456" 100 "USD" "VISA" true 7 "JPY"))).1.1
    !! "order-1" =
  Some (mkOrder "order-1" "cliente456" 100 "USD" "VISA" true 100 "USD").
Proof. vm_compute. reflexivity. Qed.

(** ** Matching *)

(** What [specMatch] returns: the first template whose criteria all match,
    or nothing when no template's criteria all match. *)
Lemma specMatch_Some (db : list Workflow) (order : Order) (wf : Workflow) :
  specMatch db order = Some wf ↔
  ∃ i, db !! i = Some wf ∧ criteriaMatch order (Criteria wf) ∧
       ∀ j wf', db !! j = Some wf' → j < i →
                ¬ criteriaMatch order (Criteria wf').
Proof.
  unfold specMatch. split.
  - intros H. apply fmap_Some in H as ([i wf0] & Hf & ->).
    apply list_find_Some in Hf. exists i. exact Hf.
  - intros (i & Hf). apply fmap_Some. exists (i, wf). split; [|reflexivity].
    apply list_find_Some. exact Hf.
Qed.

Lemma specMatch_None (db : list Workflow) (order : Order) :
  specMatch db order = None ↔
  Forall (λ wf, ¬ criteriaMatch order (Criteria wf)) db.
Proof. unfold specMatch. rewrite fmap_None. apply list_find_None. Qed.

(** On criteria made of the two keys [payment_type] and [currency], the
    test of line 118 is the specification's match. *)
Lemma line118_criteriaMatch (order : Order) (criteria : gmap string string) :
  dom criteria = {[ "payment_type"; "currency" ]} →
  criterion criteria "payment_type" = "credit_card" ∧
  criterion criteria "currency" = Currency order
  ↔ criteriaMatch order criteria.
Proof.
  intros Hdom. unfold criteriaMatch, criterion. split.
  - intros [Hp Hc] key required Hk.
    assert (key ∈ dom criteria) as Hin by (apply elem_of_dom; eauto).
    rewrite Hdom in Hin. apply elem_of_union in Hin as [Hin|Hin];
      apply elem_of_singleton in Hin; subst key.
    + rewrite Hk in Hp. cbn in Hp. subst required. reflexivity.
    + rewrite Hk in Hc. cbn in Hc. subst required. reflexivity.
  - intros Hall.
    assert (is_Some (criteria !! "payment_type")) as [vp Hvp].
    { apply elem_of_dom. rewrite Hdom. set_solver. }
    assert (is_Some (criteria !! "currency")) as [vc Hvc].
    { apply elem_of_dom. rewrite Hdom. set_solver. }
    pose proof (Hall _ _ Hvp) as Hp. pose proof (Hall _ _ Hvc) as Hc.
    rewrite Hvp, Hvc. unfold orderField in Hp, Hc.
    repeat (case_decide; try discriminate). cbn. split; congruence.
Qed.

Lemma findWorkflow_specMatch (db : list Workflow) (order : Order) :
  Forall (λ wf, dom (Criteria wf) = {[ "payment_type"; "currency" ]}) db →
  findWorkflow db order = specMatch db order.
Proof.
  unfold specMatch. induction 1 as [|wf rest Hdom _ IH]; [reflexivity|].
  cbn [findWorkflow list_find].
  pose proof (line118_criteriaMatch order (Criteria wf) Hdom) as Hiff.
  destruct (decide (criteriaMatch order (Criteria wf))) as [Hm|Hm].
  - apply Hiff in Hm as [Hp Hc].
    rewrite !bool_decide_eq_true_2 by assumption. reflexivity.
  - rewrite IH, <- option_fmap_compose.
    destruct (bool_decide _ && bool_decide _) eqn:Hb.
    + apply andb_prop in Hb as [Hp%bool_decide_eq_true Hc%bool_decide_eq_true].
      exfalso. apply Hm, Hiff. split; assumption.
    + apply option_fmap_ext. intros [i x]. reflexivity.
Qed.

Lemma workflowsDB_criteria_keys :
  Forall (λ wf, dom (Criteria wf) = {[ "payment_type"; "currency" ]})
    workflowsDB.
Proof.
  repeat constructor; cbn [Criteria];
    rewrite !dom_insert_L, dom_empty_L; set_solver.
Qed.

(** C5. For every catalogue whose templates carry the two criteria
    [payment_type] and [currency], as the program's catalogue does, and for
    every order, [findWorkflow] returns what the specification's [Match]
    returns.  Spelled out: when it returns a template, that template is in
    the catalogue at some position, every one of its criteria equals the
    corresponding field of the order, and no template at an earlier
    position has all its criteria matching; when it returns nothing, no
    template of the catalogue has all its criteria matching. *)
Theorem C5_findWorkflow_first_match_in_catalogue (db : list Workflow)
  (order : Order) :
  Forall (λ wf, dom (Criteria wf) = {[ "payment_type"; "currency" ]}) db →
  findWorkflow db order = specMatch db order ∧
  match findWorkflow db order with
  | Some wf =>
      ∃ i, db !! i = Some wf ∧ criteriaMatch order (Criteria wf) ∧
           ∀ j wf', db !! j = Some wf' → j < i →
                    ¬ criteriaMatch order (Criteria wf')
  | None => Forall (λ wf, ¬ criteriaMatch order (Criteria wf)) db
  end.
Proof.
  intros Hkeys. pose proof (findWorkflow_specMatch db order Hkeys) as Heq.
  split; [exact Heq|].
  destruct (findWorkflow db order) as [wf|].
  - apply specMatch_Some. symmetry. exact Heq.
  - apply specMatch_None. symmetry. exact Heq.
Qed.

(** An instance of C5 on a catalogue with a debit-card template and two
    credit-card templates for USD: the first credit-card one is returned. *)
Lemma C5_findWorkflow_first_match_in_catalogue_witness :
  findWorkflow dollarTwiceDB sampleOrder = specMatch dollarTwiceDB sampleOrder ∧
  match findWorkflow dollarTwiceDB sampleOrder with
  | Some wf =>
      ∃ i, dollarTwiceDB !! i = Some wf ∧
           criteriaMatch sampleOrder (Criteria wf) ∧
           ∀ j wf', dollarTwiceDB !! j = Some wf' → j < i →
                    ¬ criteriaMatch sampleOrder (Criteria wf')
  | None => Forall (λ wf, ¬ criteriaMatch sampleOrder (Criteria wf)) dollarTwiceDB
  end.
Proof.
  apply (C5_findWorkflow_first_match_in_catalogue dollarTwiceDB sampleOrder).
  repeat constructor; vm_compute; reflexivity.
Defined.

Example findWorkflow_dollarTwiceDB :
  WorkflowID <$> findWorkflow dollarTwiceDB sampleOrder = Some "first".
Proof. vm_compute. reflexivity. Qed.

(** The program's catalogue is such a catalogue. *)
Lemma findWorkflow_workflowsDB_specMatch (order : Order) :
  findWorkflow workflowsDB order = specMatch workflowsDB order.
Proof. apply findWorkflow_specMatch, workflowsDB_criteria_keys. Qed.

Example findWorkflow_usd : WorkflowID <$> findWorkflow workflowsDB sampleOrder
                           = Some "wf-payment-dcc-proposal".
Proof. vm_compute. reflexivity. Qed.

Example findWorkflow_brl :
  WorkflowID <$> findWorkflow workflowsDB
                   (mkOrder "" "c" 10 "BRL" "VISA" false 0 "")
  = Some "wf-payment-generic".
Proof. vm_compute. reflexivity. Qed.

Example findWorkflow_lowercase :
  findWorkflow workflowsDB (mkOrder "" "c" 10 "usd" "VISA" false 0 "") = None.
Proof. vm_compute. reflexivity. Qed.

(** The agreement rests on the catalogue: line 118 reads two keys only, so
    a criterion under any other key would be ignored by [findWorkflow]. *)
Remark findWorkflow_reads_two_keys :
  let visaOnly :=
    mkWorkflow "wf-visa"
      (<["card_brand" := "VISA"]>
         (<["payment_type" := "credit_card"]> (<["currency" := "EUR"]> ∅))) [] in
  findWorkflow [visaOnly] euroOrder = Some visaOnly ∧
  specMatch [visaOnly] euroOrder = None.
Proof.
  split; [vm_compute; reflexivity|].
  apply specMatch_None. repeat constructor. intros Hall.
  specialize (Hall "card_brand" "VISA"). cbn in Hall.
  assert (Some "ELO" = Some "VISA") as [=]. apply Hall. vm_compute. reflexivity.
Qed.


(** * Further properties of the server *)

(** ** How a burst changes the state *)

(** The loop leaves through line 135 only at an index of the slice it was
    entered with. *)
Lemma runSteps_paused_bound (o : Order) (steps : list WorkflowStep) (i n : nat)
  (evs : list Event) :
  runSteps o steps i = (evs, Paused n) → i < n ≤ i + length steps.
Proof.
  revert i evs. induction steps as [|s rest IH]; intros i evs; cbn [runSteps].
  - discriminate.
  - destruct (bool_decide (StepID s = "dcc_proposal")).
    + intros [= _ <-]. cbn [length]. lia.
    + destruct (runSteps o rest (S i)) as [evs' e] eqn:Hr.
      intros [= _ ->]. apply IH in Hr. cbn [length]. lia.
Qed.

(** The two ways a burst ends, with the state each leaves. *)
Lemma executeWorkflowSteps_cases (o : Order) (p : loc) (st st' : State) :
  executeWorkflowSteps o p st = Some st' →
  ∃ inst evs,
    heap st !! p = Some inst ∧
    ((∃ n,
        runSteps o (drop (StepIndex inst) (Steps (InstWorkflow inst)))
          (StepIndex inst) = (evs, Paused n) ∧
        st' = mkState (ordersDB st) (workflowInstances st)
                (<[p := mkInstance (InstWorkflow inst) n]> (heap st))
                (logs st ++ evs)) ∨
     (runSteps o (drop (StepIndex inst) (Steps (InstWorkflow inst)))
        (StepIndex inst) = (evs, Finished) ∧
      st' = mkState (ordersDB st) (delete (OrderID o) (workflowInstances st))
              (heap st) (logs st ++ evs ++ [LogWorkflowDone (OrderID o)]))).
Proof.
  unfold executeWorkflowSteps.
  destruct (heap st !! p) as [inst|] eqn:Hp; [|discriminate].
  destruct (runSteps _ _ _) as [evs [n|]] eqn:Hr; intros Hex;
    exists inst, evs; (split; [reflexivity|]).
  - left. exists n. split; [exact Hr|].
    assert (st' = storeStepIndex p n (logPrintf evs st)) as -> by congruence.
    unfold storeStepIndex, logPrintf. cbn [heap ordersDB workflowInstances logs].
    rewrite Hp. reflexivity.
  - right. split; [exact Hr|]. injection Hex as <-. reflexivity.
Qed.

(** A property kept by every action is kept by every run. *)
Lemma exec_preserves (db : list Workflow) (P : System → Prop) :
  (∀ a sys sys', P sys → execAction db a sys = Some sys' → P sys') →
  ∀ acts sys sys', P sys → exec db acts sys = Some sys' → P sys'.
Proof.
  intros Hstep acts. induction acts as [|a rest IH]; intros sys sys' HP; cbn.
  - intros Heq. assert (sys' = sys) as -> by congruence. exact HP.
  - destruct (execAction db a sys) as [sys1|] eqn:Ha; [|discriminate].
    apply IH. eapply Hstep; eauto.
Qed.

Lemma findWorkflow_elem (db : list Workflow) (o : Order) (wf : Workflow) :
  findWorkflow db o = Some wf → wf ∈ db.
Proof.
  induction db as [|w rest IH]; cbn [findWorkflow]; [discriminate|].
  destruct (_ && _).
  - intros Heq. assert (w = wf) as -> by congruence. apply list_elem_of_here.
  - intros Hr. apply list_elem_of_further, IH, Hr.
Qed.

(** ** The registry invariant *)

Lemma RegInv_init (db : list Workflow) : RegInv db initState.
Proof.
  split; cbn.
  - intros p inst H. by rewrite lookup_nil in H.
  - intros k p H. by rewrite lookup_empty in H.
  - intros i. rewrite map_size_empty. lia.
Qed.

Lemma RegInv_createOrder (db : list Workflow) (st : State) (body : option Order) :
  StateInv st → RegInv db st → RegInv db (createOrder db st body).1.1.
Proof.
  intros HI HR. destruct body as [decoded|]; [|exact HR].
  pose proof (next_id_fresh st HI) as Hfresh.
  set (order := (storeNewOrder st decoded).2).
  assert (∀ i, 1 ≤ i ≤ size (<[OrderID order := order]> (ordersDB st)) →
               is_Some (<[OrderID order := order]> (ordersDB st) !! fmtOrderID i))
    as Hfull.
  { intros i. rewrite map_size_insert_None by exact Hfresh. intros Hi.
    apply lookup_insert_is_Some'.
    destruct (decide (i = size (ordersDB st) + 1)) as [->|Hne]; [by left|].
    right. apply (reg_full db st HR). lia. }
  assert (∀ k o, ordersDB st !! k = Some o →
                 <[OrderID order := order]> (ordersDB st) !! k = Some o) as Hold.
  { intros k o Hk. rewrite lookup_insert_ne; [exact Hk|].
    intros He. cbn -[fmtOrderID] in He. congruence. }
  destruct (findWorkflow db decoded) as [wf|] eqn:Hwf.
  - rewrite (createOrder_matched db st decoded wf Hwf). fold order. split; cbn [fst heap workflowInstances ordersDB].
    + intros p inst Hp. apply lookup_snoc_Some in Hp as [[_ Hp]|[_ <-]].
      * apply (reg_heap db st HR p inst Hp).
      * cbn. split; [eapply findWorkflow_elem; eauto|lia].
    + intros k p. rewrite lookup_insert. case_decide as Hk.
      * intros Hp. assert (p = length (heap st)) as -> by congruence.
        exists order, (mkInstance wf 0). subst k.
        split; [apply lookup_insert_eq|]. split; [by apply list_lookup_middle|].
        cbn [InstWorkflow]. rewrite <- Hwf. by apply findWorkflow_currency.
      * intros Hp. destruct (reg_order db st HR k p Hp) as (o & inst & Ho & Hh & Hf).
        exists o, inst. split; [by apply Hold|]. split; [|exact Hf].
        apply lookup_app_l_Some, Hh.
    + exact Hfull.
  - rewrite (createOrder_unmatched db st decoded Hwf). fold order. split; cbn [fst heap workflowInstances ordersDB].
    + apply (reg_heap db st HR).
    + intros k p Hp. destruct (reg_order db st HR k p Hp) as (o & inst & Ho & Hh & Hf).
      exists o, inst. split; [by apply Hold|]. split; assumption.
    + exact Hfull.
Qed.

Lemma decidedOrder_currency (order : Order) (response : DCCResponse) :
  Currency (decidedOrder order response) = Currency order.
Proof. unfold decidedOrder. destruct (Accepted response); reflexivity. Qed.

Lemma RegInv_acceptDCCHandler (db : list Workflow) (st : State)
  (body : option DCCResponse) :
  RegInv db st → RegInv db (acceptDCCHandler st body).1.1.
Proof.
  intros HR. destruct body as [response|]; [|exact HR].
  assert (RegInv db (applyDecision st response).1) as HR1.
  { destruct (ordersDB st !! RespOrderID response) as [o0|] eqn:Hk.
    - rewrite (applyDecision_known st response o0 Hk). split; cbn.
      + apply (reg_heap db st HR).
      + intros k p Hp. destruct (reg_order db st HR k p Hp) as (o & inst & Ho & Hh & Hf).
        destruct (decide (RespOrderID response = k)) as [He|Hne].
        * exists (decidedOrder o0 response), inst. rewrite He, lookup_insert_eq.
          split; [reflexivity|]. split; [exact Hh|].
          rewrite <- Hf. apply findWorkflow_currency.
          rewrite decidedOrder_currency. congruence.
        * exists o, inst. rewrite lookup_insert_ne by exact Hne. by repeat split.
      + intros i. rewrite map_size_insert_Some by eauto. intros Hi.
        apply lookup_insert_is_Some'. right. by apply (reg_full db st HR).
    - rewrite (applyDecision_unknown st response Hk). exact HR. }
  unfold acceptDCCHandler. destruct (applyDecision st response) as [st1 order].
  cbn [fst] in HR1.
  destruct (workflowInstances st1 !! RespOrderID response);
    cbn [fst]; destruct HR1 as [H1 H2 H3]; split; assumption.
Qed.

Lemma RegInv_executeWorkflowSteps (db : list Workflow) (o : Order) (p : loc)
  (st st' : State) :
  RegInv db st → executeWorkflowSteps o p st = Some st' → RegInv db st'.
Proof.
  intros HR Hex.
  destruct (executeWorkflowSteps_cases o p st st' Hex)
    as (inst & evs & Hp & [(n & Hr & ->)|(Hr & ->)]).
  - destruct (reg_heap db st HR p inst Hp) as [Hin Hle].
    apply runSteps_paused_bound in Hr. rewrite length_drop in Hr.
    split; cbn [heap workflowInstances ordersDB].
    + intros q inst' Hq. destruct (decide (p = q)) as [<-|Hne].
      * rewrite list_lookup_insert_eq in Hq by (eapply lookup_lt_Some; eauto).
        assert (inst' = mkInstance (InstWorkflow inst) n) as -> by congruence.
        cbn. split; [exact Hin|lia].
      * rewrite list_lookup_insert_ne in Hq by exact Hne.
        apply (reg_heap db st HR q inst' Hq).
    + intros k q Hq. destruct (reg_order db st HR k q Hq) as (o' & inst' & Ho & Hh & Hf).
      destruct (decide (p = q)) as [<-|Hne].
      * exists o', (mkInstance (InstWorkflow inst) n).
        rewrite list_lookup_insert_eq by (eapply lookup_lt_Some; eauto).
        split; [exact Ho|]. split; [reflexivity|]. cbn. congruence.
      * exists o', inst'. rewrite list_lookup_insert_ne by exact Hne. by repeat split.
    + apply (reg_full db st HR).
  - split; cbn [heap workflowInstances ordersDB].
    + apply (reg_heap db st HR).
    + intros k q Hq. apply lookup_delete_Some in Hq as [_ Hq].
      apply (reg_order db st HR k q Hq).
    + apply (reg_full db st HR).
Qed.

Lemma reachable_RegInv (db : list Workflow) (sys : System) :
  reachable db sys → RegInv db (state sys).
Proof.
  intros [acts Hex].
  refine (proj2 (exec_preserves db (λ s, Inv s ∧ RegInv db (state s)) _
                   acts initSystem sys _ Hex)).
  - intros a s s' [HI HR] Ha. split; [eapply execAction_inv; eauto|].
    destruct HI as [HI _]. destruct a as [body|body|n]; cbn in Ha.
    + assert (s' = served s (createOrder db (state s) body)) as -> by congruence.
      cbn [served state]. by apply RegInv_createOrder.
    + assert (s' = served s (acceptDCCHandler (state s) body)) as -> by congruence.
      cbn [served state]. by apply RegInv_acceptDCCHandler.
    + destruct (goroutines s !! n) as [[o p]|]; [|discriminate].
      destruct (executeWorkflowSteps o p (state s)) as [st|] eqn:Hst; [|discriminate].
      assert (s' = mkSystem st (delete n (goroutines s))) as -> by congruence.
      cbn [state]. eapply RegInv_executeWorkflowSteps; eauto.
  - split; [exact Inv_init|apply RegInv_init].
Qed.

(** X2. On a reachable server the ids in use are exactly [order-1] to
    [order-n], for [n] the number of stored orders. *)
Theorem reachable_store_ids (db : list Workflow) (sys : System) (k : string) :
  reachable db sys →
  is_Some (ordersDB (state sys) !! k) ↔
  ∃ i, 1 ≤ i ≤ size (ordersDB (state sys)) ∧ k = fmtOrderID i.
Proof.
  intros Hr. destruct (reachable_inv db sys Hr) as [HI _].
  pose proof (reachable_RegInv db sys Hr) as HR. split.
  - apply (inv_dom _ HI).
  - intros (i & Hi & ->). by apply (reg_full db _ HR).
Qed.

Lemma reachable_store_ids_witness :
  is_Some (ordersDB (state waitingSystem) !! "order-1") ↔
  ∃ i, 1 ≤ i ≤ size (ordersDB (state waitingSystem)) ∧ "order-1" = fmtOrderID i.
Proof.
  apply (reachable_store_ids workflowsDB waitingSystem "order-1").
  exists [PostCreateOrder (Some sampleOrder); RunGoroutine 0].
  vm_compute. reflexivity.
Defined.

(** X3. On a reachable server every registered instance belongs to a
    stored order, runs the workflow that [findWorkflow] selects for that
    order as it is stored now (decisions do not change the match), and has
    its step index within the step slice. *)
Theorem registered_instance_matches (db : list Workflow) (sys : System)
  (k : string) (p : loc) :
  reachable db sys →
  workflowInstances (state sys) !! k = Some p →
  ∃ o inst,
    ordersDB (state sys) !! k = Some o ∧ OrderID o = k ∧
    heap (state sys) !! p = Some inst ∧
    findWorkflow db o = Some (InstWorkflow inst) ∧
    InstWorkflow inst ∈ db ∧
    StepIndex inst ≤ length (Steps (InstWorkflow inst)).
Proof.
  intros Hr Hp. destruct (reachable_inv db sys Hr) as [HI _].
  pose proof (reachable_RegInv db sys Hr) as HR.
  destruct (reg_order db _ HR k p Hp) as (o & inst & Ho & Hh & Hf).
  destruct (reg_heap db _ HR p inst Hh) as [Hin Hle].
  exists o, inst. split; [exact Ho|]. split; [apply (inv_key _ HI _ _ Ho)|].
  by repeat split.
Qed.

Lemma registered_instance_matches_witness :
  ∃ o inst,
    ordersDB (state waitingSystem) !! "order-1" = Some o ∧
    OrderID o = "order-1" ∧
    heap (state waitingSystem) !! 0 = Some inst ∧
    findWorkflow workflowsDB o = Some (InstWorkflow inst) ∧
    InstWorkflow inst ∈ workflowsDB ∧
    StepIndex inst ≤ length (Steps (InstWorkflow inst)).
Proof.
  apply (registered_instance_matches workflowsDB waitingSystem "order-1" 0).
  - exists [PostCreateOrder (Some sampleOrder); RunGoroutine 0].
    vm_compute. reflexivity.
  - vm_compute. reflexivity.
Defined.



(** ** Order ids, in sequence *)

(** An action either assigns the next id and grows the store by one order,
    or assigns none and leaves the number of orders as it was. *)
Lemma execAction_size (db : list Workflow) (a : Action) (sys sys' : System) :
  Inv sys → execAction db a sys = Some sys' →
  (assignedID a sys = Some (fmtOrderID (size (ordersDB (state sys)) + 1)) ∧
   size (ordersDB (state sys')) = S (size (ordersDB (state sys)))) ∨
  (assignedID a sys = None ∧
   size (ordersDB (state sys')) = size (ordersDB (state sys))).
Proof.
  intros [HI _] Ha. destruct a as [[decoded|]|body|n]; unfold execAction in Ha.
  - left. split; [reflexivity|].
    assert (sys' = served sys (createOrder db (state sys) (Some decoded))) as ->
      by congruence.
    unfold served. cbn [state]. rewrite createOrder_ordersDB.
    apply map_size_insert_None, next_id_fresh, HI.
  - right. split; [reflexivity|].
    assert (sys' = served sys (createOrder db (state sys) None)) as ->
      by congruence.
    reflexivity.
  - right. split; [reflexivity|].
    assert (sys' = served sys (acceptDCCHandler (state sys) body)) as ->
      by congruence.
    unfold served. cbn [state]. rewrite acceptDCCHandler_ordersDB.
    destruct body as [r|]; [|reflexivity].
    destruct (ordersDB (state sys) !! RespOrderID r) eqn:Hk; [|reflexivity].
    apply map_size_insert_Some. eauto.
  - right. split; [reflexivity|].
    destruct (goroutines sys !! n) as [[o p]|]; [|discriminate].
    destruct (executeWorkflowSteps o p (state sys)) as [st|] eqn:Hex; [|discriminate].
    assert (sys' = mkSystem st (delete n (goroutines sys))) as -> by congruence.
    cbn [state]. destruct (executeWorkflowSteps_frame _ _ _ _ Hex) as (-> & _).
    reflexivity.
Qed.

Lemma assignedIDs_from (db : list Workflow) (acts : list Action)
  (sys sys' : System) :
  Inv sys → exec db acts sys = Some sys' →
  size (ordersDB (state sys)) ≤ size (ordersDB (state sys')) ∧
  assignedIDs db acts sys =
    fmtOrderID <$> seq (S (size (ordersDB (state sys))))
                     (size (ordersDB (state sys')) - size (ordersDB (state sys))).
Proof.
  revert sys. induction acts as [|a rest IH]; intros sys HI; cbn [exec assignedIDs].
  - intros Heq. assert (sys' = sys) as -> by congruence.
    rewrite Nat.sub_diag. split; [lia|reflexivity].
  - destruct (execAction db a sys) as [sys1|] eqn:Ha; [|discriminate].
    intros Hex.
    destruct (IH sys1 (execAction_inv db a sys sys1 HI Ha) Hex) as [Hle Hids].
    rewrite Hids.
    destruct (execAction_size db a sys sys1 HI Ha) as [[-> Hs]|[-> Hs]];
      rewrite Hs in *; cbn [option_list app].
    + split; [lia|].
      replace (size (ordersDB (state sys')) - size (ordersDB (state sys)))
        with (S (size (ordersDB (state sys')) - S (size (ordersDB (state sys)))))
        by lia.
      cbn [seq fmap list_fmap]. rewrite Nat.add_1_r. reflexivity.
    + split; [lia|reflexivity].
Qed.

(** X1. Along any run from the empty store the ids are handed out in
    sequence: the orders created are [order-1], [order-2], ... in the order
    of their requests, as many as there are orders in the store at the
    end. *)
Theorem assigned_ids_sequential (db : list Workflow) (acts : list Action)
  (sys : System) :
  exec db acts initSystem = Some sys →
  assignedIDs db acts initSystem =
    fmtOrderID <$> seq 1 (size (ordersDB (state sys))).
Proof.
  intros Hex. destruct (assignedIDs_from db acts _ _ Inv_init Hex) as [_ Hids].
  rewrite Hids. cbn [initSystem state initState ordersDB].
  rewrite map_size_empty, Nat.sub_0_r. reflexivity.
Qed.

Lemma assigned_ids_sequential_witness :
  assignedIDs workflowsDB
    [PostCreateOrder (Some sampleOrder); RunGoroutine 0;
     PostCreateOrder None; PostCreateOrder (Some euroOrder);
     PostAcceptDCC (Some sampleReject); PostCreateOrder (Some sampleOrder)]
    initSystem
  = fmtOrderID <$> seq 1 3.
Proof.
  apply (assigned_ids_sequential workflowsDB
           [PostCreateOrder (Some sampleOrder); RunGoroutine 0;
            PostCreateOrder None; PostCreateOrder (Some euroOrder);
            PostAcceptDCC (Some sampleReject); PostCreateOrder (Some sampleOrder)]
           (default initSystem
              (exec workflowsDB
                 [PostCreateOrder (Some sampleOrder); RunGoroutine 0;
                  PostCreateOrder None; PostCreateOrder (Some euroOrder);
                  PostAcceptDCC (Some sampleReject);
                  PostCreateOrder (Some sampleOrder)] initSystem))).
  vm_compute. reflexivity.
Defined.

(** ** Bursts and the step index *)

(** X4. A burst never moves a step index backwards and never changes the
    workflow of an instance; of all allocated instances it can only touch
    the one it was started with. *)
Theorem burst_cursor_monotone (o : Order) (p q : loc) (st st' : State)
  (inst : WorkflowInstance) :
  executeWorkflowSteps o p st = Some st' →
  heap st !! q = Some inst →
  ∃ inst',
    heap st' !! q = Some inst' ∧
    InstWorkflow inst' = InstWorkflow inst ∧
    StepIndex inst ≤ StepIndex inst' ∧
    (q ≠ p → inst' = inst).
Proof.
  intros Hex Hq.
  destruct (executeWorkflowSteps_cases o p st st' Hex)
    as (instp & evs & Hp & [(n & Hr & ->)|(Hr & ->)]); cbn [heap].
  - destruct (decide (p = q)) as [<-|Hne].
    + assert (instp = inst) as -> by congruence.
      exists (mkInstance (InstWorkflow inst) n).
      rewrite list_lookup_insert_eq by (eapply lookup_lt_Some; eauto).
      apply runSteps_paused_bound in Hr. cbn. split_and!; [done|done|lia|done].
    + exists inst. rewrite list_lookup_insert_ne by exact Hne. by split_and!.
  - exists inst. by split_and!.
Qed.

Lemma burst_cursor_monotone_witness :
  ∃ inst',
    heap (default initState
            (executeWorkflowSteps
               (mkOrder "order-1" "cliente456" 100 "USD" "VISA" false 100 "USD") 0
               (createOrder workflowsDB initState (Some sampleOrder)).1.1))
      !! 0 = Some inst' ∧
    InstWorkflow inst' =
      InstWorkflow (mkInstance (default (mkWorkflow "" ∅ []) (workflowsDB !! 0)) 0) ∧
    StepIndex (mkInstance (default (mkWorkflow "" ∅ []) (workflowsDB !! 0)) 0)
      ≤ StepIndex inst' ∧
    (0 ≠ 0 → inst' = mkInstance (default (mkWorkflow "" ∅ []) (workflowsDB !! 0)) 0).
Proof.
  apply (burst_cursor_monotone
           (mkOrder "order-1" "cliente456" 100 "USD" "VISA" false 100 "USD") 0 0
           (createOrder workflowsDB initState (Some sampleOrder)).1.1).
  - vm_compute. reflexivity.
  - vm_compute. reflexivity.
Defined.

Lemma drop_past_pause (steps pre post : list WorkflowStep) (q : WorkflowStep)
  (i : nat) :
  drop i steps = pre ++ q :: post → drop (i + length pre + 1) steps = post.
Proof.
  intros Hd. rewrite <- Nat.add_assoc, <- drop_drop, Hd.
  rewrite drop_app_ge by lia.
  replace (length pre + 1 - length pre) with 1 by lia. reflexivity.
Qed.

(** A burst whose remaining steps reach a pause step stops there. *)
Lemma executeWorkflowSteps_pauses (o : Order) (p : loc) (st : State)
  (inst : WorkflowInstance) (pre post : list WorkflowStep) (q : WorkflowStep) :
  heap st !! p = Some inst →
  drop (StepIndex inst) (Steps (InstWorkflow inst)) = pre ++ q :: post →
  Forall (λ s, ¬ isPause s) pre →
  isPause q →
  executeWorkflowSteps o p st =
    Some (mkState (ordersDB st) (workflowInstances st)
            (<[p := mkInstance (InstWorkflow inst)
                      (StepIndex inst + length pre + 1)]> (heap st))
            (logs st ++
             settlementLog (OrderID o) (PaymentAmount o) (PaymentCurrency o) pre ++
             [LogStep (StepID q) (Service q) (OrderID o);
              LogDCCOffer (OrderID o) (PaymentAmount o) (PaymentCurrency o)
                (PaymentAmount o * 0.85)%float])).
Proof.
  intros Hp Hd Hpre Hq. unfold executeWorkflowSteps. rewrite Hp, Hd.
  rewrite (runSteps_pause o pre post q _ Hpre Hq).
  unfold storeStepIndex, logPrintf. cbn [heap ordersDB workflowInstances logs].
  rewrite Hp. reflexivity.
Qed.

(** X5. Two bursts on one instance compose through the step index.  When
    the remaining steps hold one pause step, the first burst logs the steps
    before it and the offer, all with the order it was spawned with, and
    stores the index past the pause step; the second burst continues from
    there with its own copy of the order, whatever the store holds by then,
    and removes the instance registered under that order's id. *)
Theorem pause_then_resume (o1 o2 : Order) (p : loc) (st : State)
  (inst : WorkflowInstance) (pre post : list WorkflowStep) (q : WorkflowStep) :
  heap st !! p = Some inst →
  drop (StepIndex inst) (Steps (InstWorkflow inst)) = pre ++ q :: post →
  Forall (λ s, ¬ isPause s) pre →
  isPause q →
  Forall (λ s, ¬ isPause s) post →
  ∃ st1 st2,
    executeWorkflowSteps o1 p st = Some st1 ∧
    heap st1 !! p =
      Some (mkInstance (InstWorkflow inst) (StepIndex inst + length pre + 1)) ∧
    workflowInstances st1 = workflowInstances st ∧
    executeWorkflowSteps o2 p st1 = Some st2 ∧
    workflowInstances st2 = delete (OrderID o2) (workflowInstances st) ∧
    ordersDB st2 = ordersDB st ∧
    logs st2 =
      logs st ++
      settlementLog (OrderID o1) (PaymentAmount o1) (PaymentCurrency o1) pre ++
      [LogStep (StepID q) (Service q) (OrderID o1);
       LogDCCOffer (OrderID o1) (PaymentAmount o1) (PaymentCurrency o1)
         (PaymentAmount o1 * 0.85)%float] ++
      settlementLog (OrderID o2) (PaymentAmount o2) (PaymentCurrency o2) post ++
      [LogWorkflowDone (OrderID o2)].
Proof.
  intros Hp Hd Hpre Hq Hpost.
  pose proof (executeWorkflowSteps_pauses o1 p st inst pre post q Hp Hd Hpre Hq)
    as H1.
  eexists _, _. split; [exact H1|]. cbn [heap workflowInstances].
  assert (<[p := mkInstance (InstWorkflow inst) (StepIndex inst + length pre + 1)]>
            (heap st) !! p
          = Some (mkInstance (InstWorkflow inst) (StepIndex inst + length pre + 1)))
    as Hp1 by (apply list_lookup_insert_eq; eapply lookup_lt_Some; eauto).
  split; [exact Hp1|]. split; [reflexivity|].
  erewrite executeWorkflowSteps_finishes; [|exact Hp1|].
  - cbn [InstWorkflow StepIndex]. rewrite (drop_past_pause _ pre post q _ Hd).
    split; [reflexivity|]. cbn [workflowInstances ordersDB logs].
    split; [reflexivity|]. split; [reflexivity|].
    rewrite <- !app_assoc. reflexivity.
  - cbn [InstWorkflow StepIndex]. rewrite (drop_past_pause _ pre post q _ Hd).
    exact Hpost.
Qed.

(** An instance of X5 in which the decision arrives before the first burst
    has run: the burst spawned by the decision makes the offer with the
    decided values, and the burst spawned by [createOrder] then settles
    with the values the order was created with. *)
Lemma pause_then_resume_witness :
  ∃ st1 st2,
    executeWorkflowSteps
      (mkOrder "order-1" "cliente456" 100 "USD" "VISA" true 85 "BRL") 0
      (state decidedEarlySystem) = Some st1 ∧
    heap st1 !! 0 =
      Some (mkInstance (default (mkWorkflow "" ∅ []) (workflowsDB !! 0)) 1) ∧
    workflowInstances st1 = workflowInstances (state decidedEarlySystem) ∧
    executeWorkflowSteps
      (mkOrder "order-1" "cliente456" 100 "USD" "VISA" false 100 "USD") 0 st1
      = Some st2 ∧
    workflowInstances st2 =
      delete "order-1" (workflowInstances (state decidedEarlySystem)) ∧
    ordersDB st2 = ordersDB (state decidedEarlySystem) ∧
    logs st2 =
      logs (state decidedEarlySystem) ++
      [] ++
      [LogStep "dcc_proposal" "PBC_DCC" "order-1";
       LogDCCOffer "order-1" 85 "BRL" (85 * 0.85)%float] ++
      [LogStep "payment_processing" "PBC_Payment" "order-1";
       LogPayment "order-1" 100 "USD"] ++
      [LogWorkflowDone "order-1"].
Proof.
  apply (pause_then_resume
           (mkOrder "order-1" "cliente456" 100 "USD" "VISA" true 85 "BRL")
           (mkOrder "order-1" "cliente456" 100 "USD" "VISA" false 100 "USD")
           0 (state decidedEarlySystem)
           (mkInstance (default (mkWorkflow "" ∅ []) (workflowsDB !! 0)) 0)
           [] [mkStep "payment_processing" "PBC_Payment" "pending"]
           (mkStep "dcc_proposal" "PBC_DCC" "pending")).
  - vm_compute. reflexivity.
  - reflexivity.
  - constructor.
  - reflexivity.
  - repeat constructor. unfold isPause. cbn. discriminate.
Defined.

(** X6. Completing a workflow removes the registry entry and leaves the
    step index of the instance where it was.  A second burst that holds the
    same pointer, as spawned by a second decision that arrived before the
    first resumed burst ran, therefore runs the remaining steps again: each
    settlement step is logged twice, once per burst. *)
Theorem completed_burst_replays (o1 o2 : Order) (p : loc) (st : State)
  (inst : WorkflowInstance) :
  heap st !! p = Some inst →
  Forall (λ s, ¬ isPause s) (drop (StepIndex inst) (Steps (InstWorkflow inst))) →
  ∃ st1 st2,
    executeWorkflowSteps o1 p st = Some st1 ∧
    heap st1 = heap st ∧
    workflowInstances st1 !! OrderID o1 = None ∧
    executeWorkflowSteps o2 p st1 = Some st2 ∧
    logs st2 =
      logs st ++
      settlementLog (OrderID o1) (PaymentAmount o1) (PaymentCurrency o1)
        (drop (StepIndex inst) (Steps (InstWorkflow inst))) ++
      [LogWorkflowDone (OrderID o1)] ++
      settlementLog (OrderID o2) (PaymentAmount o2) (PaymentCurrency o2)
        (drop (StepIndex inst) (Steps (InstWorkflow inst))) ++
      [LogWorkflowDone (OrderID o2)].
Proof.
  intros Hp Hall.
  eexists _, _. split; [exact (executeWorkflowSteps_finishes o1 p st inst Hp Hall)|].
  cbn [heap workflowInstances]. split; [reflexivity|].
  split; [apply lookup_delete_eq|].
  erewrite executeWorkflowSteps_finishes; [|exact Hp|exact Hall].
  split; [reflexivity|]. cbn [logs]. rewrite <- !app_assoc. reflexivity.
Qed.

(** An instance of X6: two accepted decisions for the waiting [order-1]
    are received before either resumed burst runs. *)
Lemma completed_burst_replays_witness :
  ∃ st1 st2,
    executeWorkflowSteps
      (mkOrder "order-1" "cliente456" 100 "USD" "VISA" true 85 "BRL") 0
      (state decidedTwiceSystem) = Some st1 ∧
    heap st1 = heap (state decidedTwiceSystem) ∧
    workflowInstances st1 !! "order-1" = None ∧
    executeWorkflowSteps
      (mkOrder "order-1" "cliente456" 100 "USD" "VISA" true 1 "EUR") 0 st1
      = Some st2 ∧
    logs st2 =
      logs (state decidedTwiceSystem) ++
      [LogStep "payment_processing" "PBC_Payment" "order-1";
       LogPayment "order-1" 85 "BRL"] ++
      [LogWorkflowDone "order-1"] ++
      [LogStep "payment_processing" "PBC_Payment" "order-1";
       LogPayment "order-1" 1 "EUR"] ++
      [LogWorkflowDone "order-1"].
Proof.
  refine (completed_burst_replays
            (mkOrder "order-1" "cliente456" 100 "USD" "VISA" true 85 "BRL")
            (mkOrder "order-1" "cliente456" 100 "USD" "VISA" true 1 "EUR")
            0 (state decidedTwiceSystem)
            (mkInstance (default (mkWorkflow "" ∅ []) (workflowsDB !! 0)) 1)
            _ _).
  - vm_compute. reflexivity.
  - cbn. repeat constructor. unfold isPause. cbn. discriminate.
Defined.

(** The two pending bursts of [decidedTwiceSystem] are the ones of X6. *)
Example decidedTwiceSystem_goroutines :
  goroutines decidedTwiceSystem =
    [(mkOrder "order-1" "cliente456" 100 "USD" "VISA" true 85 "BRL", 0);
     (mkOrder "order-1" "cliente456" 100 "USD" "VISA" true 1 "EUR", 0)].
Proof. vm_compute. reflexivity. Qed.

Example decidedEarlySystem_goroutines :
  goroutines decidedEarlySystem =
    [(mkOrder "order-1" "cliente456" 100 "USD" "VISA" false 100 "USD", 0);
     (mkOrder "order-1" "cliente456" 100 "USD" "VISA" true 85 "BRL", 0)].
Proof. vm_compute. reflexivity. Qed.

(** ** Whole workflows *)

(** X7. When the workflow matched for a new order has no pause step, the
    burst started by [createOrder] runs every step at once, each payment
    with the original amount and currency of the request, reports the
    workflow complete and removes the instance again: the order never waits
    for a decision. *)
Theorem initial_burst_without_pause (db : list Workflow) (st : State)
  (decoded : Order) (wf : Workflow) :
  findWorkflow db decoded = Some wf →
  Forall (λ s, ¬ isPause s) (Steps wf) →
  let order := (storeNewOrder st decoded).2 in
  ∃ st1 instance st2,
    createOrder db st (Some decoded) =
      (st1, HttpStatus 201 (Some order), Some (order, instance)) ∧
    executeWorkflowSteps order instance st1 = Some st2 ∧
    ordersDB st2 !! OrderID order = Some order ∧
    workflowInstances st2 = delete (OrderID order) (workflowInstances st) ∧
    logs st2 =
      logs st ++ [LogOrderCreated order] ++
      settlementLog (OrderID order) (Amount decoded) (Currency decoded) (Steps wf) ++
      [LogWorkflowDone (OrderID order)].
Proof.
  intros Hwf Hall order.
  pose proof (createOrder_matched db st decoded wf Hwf) as Hc.
  cbv zeta in Hc. fold order in Hc.
  eexists _, _, _. split; [exact Hc|].
  erewrite (executeWorkflowSteps_finishes order _ _ (mkInstance wf 0));
    [|by apply list_lookup_middle|by rewrite drop_0].
  split; [reflexivity|]. cbn [ordersDB workflowInstances logs InstWorkflow StepIndex].
  split; [apply lookup_insert_eq|]. split; [apply delete_insert_eq|].
  rewrite drop_0, <- !app_assoc. reflexivity.
Qed.

(** An instance of X7: an order in BRL on the empty server. *)
Lemma initial_burst_without_pause_witness :
  ∃ st1 instance st2,
    createOrder workflowsDB initState
      (Some (mkOrder "" "cliente456" 100 "BRL" "VISA" false 0 "")) =
      (st1,
       HttpStatus 201
         (Some (mkOrder "order-1" "cliente456" 100 "BRL" "VISA" false 100 "BRL")),
       Some (mkOrder "order-1" "cliente456" 100 "BRL" "VISA" false 100 "BRL",
             instance)) ∧
    executeWorkflowSteps
      (mkOrder "order-1" "cliente456" 100 "BRL" "VISA" false 100 "BRL")
      instance st1 = Some st2 ∧
    ordersDB st2 !! "order-1" =
      Some (mkOrder "order-1" "cliente456" 100 "BRL" "VISA" false 100 "BRL") ∧
    workflowInstances st2 = delete "order-1" (workflowInstances initState) ∧
    logs st2 =
      logs initState ++
      [LogOrderCreated
         (mkOrder "order-1" "cliente456" 100 "BRL" "VISA" false 100 "BRL")] ++
      [LogStep "payment_processing" "PBC_Payment" "order-1";
       LogPayment "order-1" 100 "BRL"] ++
      [LogWorkflowDone "order-1"].
Proof.
  refine (initial_burst_without_pause workflowsDB initState
            (mkOrder "" "cliente456" 100 "BRL" "VISA" false 0 "")
            (default (mkWorkflow "" ∅ []) (workflowsDB !! 1)) _ _).
  - vm_compute. reflexivity.
  - cbn. repeat constructor. unfold isPause. cbn. discriminate.
Defined.

(** X11. The whole life of an order in USD, on any server state and for
    any request body: [createOrder] answers 201 with the order, the first
    burst makes the offer on the original amount and stops, an accepted
    decision [(a, c)] for the returned id answers 200, and the resumed burst
    settles with [(a, c)] and removes the instance.  At the end the store
    holds the order with its original fields, the flag set and payment
    [(a, c)]. *)
Theorem usd_order_lifecycle (st : State) (decoded : Order) (a : float64)
  (c : string) :
  Currency decoded = "USD" →
  let order := (storeNewOrder st decoded).2 in
  let id := OrderID order in
  let order' :=
    mkOrder id (CustomerID decoded) (Amount decoded) "USD" (CardBrand decoded)
      true a c in
  ∃ st1 instance st2 st3 st4,
    createOrder workflowsDB st (Some decoded) =
      (st1, HttpStatus 201 (Some order), Some (order, instance)) ∧
    executeWorkflowSteps order instance st1 = Some st2 ∧
    acceptDCCHandler st2 (Some (mkDCCResponse id true a c)) =
      (st3, HttpStatus 200 None, Some (order', instance)) ∧
    executeWorkflowSteps order' instance st3 = Some st4 ∧
    ordersDB st4 !! id = Some order' ∧
    workflowInstances st4 !! id = None ∧
    logs st4 =
      logs st ++
      [LogOrderCreated order;
       LogStep "dcc_proposal" "PBC_DCC" id;
       LogDCCOffer id (Amount decoded) "USD" (Amount decoded * 0.85)%float;
       LogDCCAccepted id a c;
       LogResume id;
       LogStep "payment_processing" "PBC_Payment" id;
       LogPayment id a c;
       LogWorkflowDone id].
Proof.
  destruct decoded as [oid cust amt cur brand flag pamt pcur].
  intros Hcur order id order'. cbn [Currency] in Hcur. subst cur.
  set (wf := mkWorkflow "wf-payment-dcc-proposal"
               (<["payment_type" := "credit_card"]> (<["currency" := "USD"]> ∅))
               [ mkStep "dcc_proposal" "PBC_DCC" "pending";
                 mkStep "payment_processing" "PBC_Payment" "pending" ]).
  assert (findWorkflow workflowsDB (mkOrder oid cust amt "USD" brand flag pamt pcur)
          = Some wf) as Hwf by (vm_compute; reflexivity).
  pose proof (createOrder_matched workflowsDB st _ wf Hwf) as Hc.
  cbv zeta in Hc. fold order in Hc. fold id in Hc.
  eexists _, _, _, _, _. split; [exact Hc|].
  split.
  { apply (executeWorkflowSteps_pauses order _ _ (mkInstance wf 0) []
             [mkStep "payment_processing" "PBC_Payment" "pending"]
             (mkStep "dcc_proposal" "PBC_DCC" "pending")).
    - by apply list_lookup_middle.
    - reflexivity.
    - constructor.
    - reflexivity. }
  split.
  { rewrite (acceptDCCHandler_resumes _ (mkDCCResponse id true a c) order
               (length (heap st)));
      [reflexivity| apply lookup_insert_eq | apply lookup_insert_eq]. }
  assert (<[length (heap st) := mkInstance wf 1]> (heap st ++ [mkInstance wf 0])
            !! length (heap st) = Some (mkInstance wf 1)) as Hp1.
  { apply list_lookup_insert_eq. rewrite length_app. cbn. lia. }
  split.
  { apply (executeWorkflowSteps_finishes _ _ _ (mkInstance wf 1)).
    - exact Hp1.
    - cbn. repeat constructor. unfold isPause. cbn. discriminate. }
  cbn [ordersDB workflowInstances logs OrderID].
  split; [apply lookup_insert_eq|]. split; [apply lookup_delete_eq|].
  cbn -[fmtOrderID mul]. rewrite <- !app_assoc. reflexivity.
Qed.

Lemma usd_order_lifecycle_witness :
  ∃ st1 instance st2 st3 st4,
    createOrder workflowsDB initState (Some sampleOrder) =
      (st1,
       HttpStatus 201
         (Some (mkOrder "order-1" "cliente456" 100 "USD" "VISA" false 100 "USD")),
       Some (mkOrder "order-1" "cliente456" 100 "USD" "VISA" false 100 "USD",
             instance)) ∧
    executeWorkflowSteps
      (mkOrder "order-1" "cliente456" 100 "USD" "VISA" false 100 "USD")
      instance st1 = Some st2 ∧
    acceptDCCHandler st2 (Some (mkDCCResponse "order-1" true 85 "BRL")) =
      (st3, HttpStatus 200 None,
       Some (mkOrder "order-1" "cliente456" 100 "USD" "VISA" true 85 "BRL",
             instance)) ∧
    executeWorkflowSteps
      (mkOrder "order-1" "cliente456" 100 "USD" "VISA" true 85 "BRL")
      instance st3 = Some st4 ∧
    ordersDB st4 !! "order-1" =
      Some (mkOrder "order-1" "cliente456" 100 "USD" "VISA" true 85 "BRL") ∧
    workflowInstances st4 !! "order-1" = None ∧
    logs st4 =
      logs initState ++
      [LogOrderCreated
         (mkOrder "order-1" "cliente456" 100 "USD" "VISA" false 100 "USD");
       LogStep "dcc_proposal" "PBC_DCC" "order-1";
       LogDCCOffer "order-1" 100 "USD" (100 * 0.85)%float;
       LogDCCAccepted "order-1" 85 "BRL";
       LogResume "order-1";
       LogStep "payment_processing" "PBC_Payment" "order-1";
       LogPayment "order-1" 85 "BRL";
       LogWorkflowDone "order-1"].
Proof.
  refine (usd_order_lifecycle initState sampleOrder 85%float "BRL" _).
  reflexivity.
Defined.

(** ** Decisions, one after another *)

(** X9. An accepted decision overwrites whatever an earlier decision for
    the same order left in the store: after two decisions of which the
    second is accepted, the store is the one the second alone would give. *)
Theorem later_accepted_decision_wins (st : State) (d1 d2 : DCCResponse)
  (o : Order) :
  ordersDB st !! RespOrderID d2 = Some o →
  RespOrderID d1 = RespOrderID d2 →
  Accepted d2 = true →
  ordersDB (acceptDCCHandler (acceptDCCHandler st (Some d1)).1.1 (Some d2)).1.1
  = ordersDB (acceptDCCHandler st (Some d2)).1.1.
Proof.
  intros Ho Hid Hacc. rewrite !acceptDCCHandler_ordersDB.
  rewrite Hid, Ho, lookup_insert_eq, insert_insert_eq.
  f_equal. unfold decidedOrder. rewrite Hacc.
  destruct (Accepted d1); reflexivity.
Qed.

Lemma later_accepted_decision_wins_witness :
  ordersDB
    (acceptDCCHandler
       (acceptDCCHandler (state waitingSystem)
          (Some (mkDCCResponse "order-1" false 0 ""))).1.1
       (Some (mkDCCResponse "order-1" true 85 "BRL"))).1.1
  = ordersDB
      (acceptDCCHandler (state waitingSystem)
         (Some (mkDCCResponse "order-1" true 85 "BRL"))).1.1.
Proof.
  refine (later_accepted_decision_wins (state waitingSystem)
            (mkDCCResponse "order-1" false 0 "")
            (mkDCCResponse "order-1" true 85 "BRL")
            (mkOrder "order-1" "cliente456" 100 "USD" "VISA" false 100 "USD")
            _ _ _).
  - vm_compute. reflexivity.
  - reflexivity.
  - reflexivity.
Defined.

(** X10. A refusal does not restore the original amount.  After an
    accepted decision [(a, c)], a refusal for the same order leaves the
    payment fields at [(a, c)] and clears the flag, and the line it logs
    (line 185) carries [(a, c)]. *)
Theorem refusal_after_acceptance (st : State) (k : string) (o : Order)
  (a a' : float64) (c c' : string) :
  ordersDB st !! k = Some o →
  let st1 := (acceptDCCHandler st (Some (mkDCCResponse k true a c))).1.1 in
  let st2 := (acceptDCCHandler st1 (Some (mkDCCResponse k false a' c'))).1.1 in
  ordersDB st2 !! k =
    Some (mkOrder (OrderID o) (CustomerID o) (Amount o) (Currency o)
            (CardBrand o) false a c) ∧
  LogDCCRejected k a c ∈ logs st2.
Proof.
  intros Ho st1 st2.
  assert (ordersDB st1 !! k =
          Some (mkOrder (OrderID o) (CustomerID o) (Amount o) (Currency o)
                  (CardBrand o) true a c)) as Ho1.
  { subst st1. rewrite acceptDCCHandler_ordersDB. cbn [RespOrderID].
    rewrite Ho. apply lookup_insert_eq. }
  split.
  - subst st2. rewrite acceptDCCHandler_ordersDB. cbn [RespOrderID].
    rewrite Ho1. apply lookup_insert_eq.
  - subst st2. unfold acceptDCCHandler.
    rewrite (applyDecision_known st1 (mkDCCResponse k false a' c') _ Ho1).
    cbn [RespOrderID workflowInstances].
    destruct (workflowInstances st1 !! k); cbn; set_solver.
Qed.

Lemma refusal_after_acceptance_witness :
  ordersDB
    (acceptDCCHandler
       (acceptDCCHandler (state waitingSystem)
          (Some (mkDCCResponse "order-1" true 85 "BRL"))).1.1
       (Some (mkDCCResponse "order-1" false 0 ""))).1.1 !! "order-1" =
    Some (mkOrder "order-1" "cliente456" 100 "USD" "VISA" false 85 "BRL") ∧
  LogDCCRejected "order-1" 85 "BRL" ∈
    logs
      (acceptDCCHandler
         (acceptDCCHandler (state waitingSystem)
            (Some (mkDCCResponse "order-1" true 85 "BRL"))).1.1
         (Some (mkDCCResponse "order-1" false 0 ""))).1.1.
Proof.
  refine (refusal_after_acceptance (state waitingSystem) "order-1"
            (mkOrder "order-1" "cliente456" 100 "USD" "VISA" false 100 "USD")
            85%float 0%float "BRL" "" _).
  vm_compute. reflexivity.
Defined.

(** ** Matching, at the edges *)

(** X13. On the catalogue of the program an order gets a workflow exactly
    when its original currency is the string [USD] or the string [BRL]:
    the DCC workflow for the first, the generic one for the second, and none
    for any other currency, a currency in another case or a missing one. *)
Theorem findWorkflow_workflowsDB_by_currency (order : Order) :
  WorkflowID <$> findWorkflow workflowsDB order =
    if decide (Currency order = "USD") then Some "wf-payment-dcc-proposal"
    else if decide (Currency order = "BRL") then Some "wf-payment-generic"
    else None.
Proof.
  unfold workflowsDB. cbn [findWorkflow Criteria].
  replace (criterion (<["payment_type":="credit_card"]> (<["currency":="USD"]> ∅))
             "payment_type") with "credit_card" by (vm_compute; reflexivity).
  replace (criterion (<["payment_type":="credit_card"]> (<["currency":="USD"]> ∅))
             "currency") with "USD" by (vm_compute; reflexivity).
  replace (criterion (<["payment_type":="credit_card"]> (<["currency":="BRL"]> ∅))
             "payment_type") with "credit_card" by (vm_compute; reflexivity).
  replace (criterion (<["payment_type":="credit_card"]> (<["currency":="BRL"]> ∅))
             "currency") with "BRL" by (vm_compute; reflexivity).
  rewrite bool_decide_eq_true_2 by reflexivity. cbn [andb].
  destruct (decide (Currency order = "USD")) as [He|Hne].
  - rewrite bool_decide_eq_true_2 by done. reflexivity.
  - rewrite bool_decide_eq_false_2 by congruence.
    destruct (decide (Currency order = "BRL")) as [He'|Hne'].
    + rewrite bool_decide_eq_true_2 by done. reflexivity.
    + rewrite bool_decide_eq_false_2 by congruence. reflexivity.
Qed.

(** X12. A workflow whose criteria have no [currency] entry is compared
    with the empty string (the map's zero value): placed first, it is
    selected for the orders whose currency is empty, such as a request that
    omits the field, and skipped for every other order. *)
Theorem findWorkflow_missing_currency_criterion (wf : Workflow)
  (rest : list Workflow) (order : Order) :
  Criteria wf !! "currency" = None →
  Criteria wf !! "payment_type" = Some "credit_card" →
  findWorkflow (wf :: rest) order =
    if decide (Currency order = "") then Some wf else findWorkflow rest order.
Proof.
  intros Hc Hp. cbn [findWorkflow]. unfold criterion. rewrite Hc, Hp. cbn [default].
  rewrite bool_decide_eq_true_2 by reflexivity. cbn [andb].
  destruct (decide (Currency order = "")) as [He|Hne].
  - rewrite bool_decide_eq_true_2 by done. reflexivity.
  - rewrite bool_decide_eq_false_2 by congruence. reflexivity.
Qed.

Lemma findWorkflow_missing_currency_criterion_witness :
  findWorkflow
    (mkWorkflow "wf-any" (<["payment_type" := "credit_card"]> ∅) [] :: workflowsDB)
    (mkOrder "" "cliente456" 100 "" "VISA" false 0 "")
  = if decide ("" = "")
    then Some (mkWorkflow "wf-any" (<["payment_type" := "credit_card"]> ∅) [])
    else findWorkflow workflowsDB (mkOrder "" "cliente456" 100 "" "VISA" false 0 "").
Proof.
  refine (findWorkflow_missing_currency_criterion
            (mkWorkflow "wf-any" (<["payment_type" := "credit_card"]> ∅) [])
            workflowsDB (mkOrder "" "cliente456" 100 "" "VISA" false 0 "") _ _).
  - vm_compute. reflexivity.
  - vm_compute. reflexivity.
Defined.

(** ** Pending bursts *)

(** X14. On a reachable server every pending burst holds a pointer to an
    allocated instance, so that running it never dereferences a missing
    instance: [execAction] on any of the pending bursts yields a state. *)
Theorem pending_burst_runs (db : list Workflow) (sys : System) (n : nat) :
  reachable db sys → n < length (goroutines sys) →
  ∃ sys', execAction db (RunGoroutine n) sys = Some sys' ∧
          length (goroutines sys') = length (goroutines sys) - 1 ∧
          ordersDB (state sys') = ordersDB (state sys).
Proof.
  intros Hr Hn. destruct (reachable_inv db sys Hr) as [_ Hgo].
  unfold execAction.
  destruct (goroutines sys !! n) as [[o p]|] eqn:Hg.
  - pose proof (proj1 (Forall_lookup _ _) Hgo n (o, p) Hg) as Hp. cbn in Hp.
    destruct (executeWorkflowSteps_total o p (state sys) Hp) as [st Hst].
    rewrite Hst. eexists. split; [reflexivity|]. cbn [goroutines state].
    split; [rewrite length_delete by eauto; lia|].
    by destruct (executeWorkflowSteps_frame _ _ _ _ Hst) as (-> & _).
  - apply lookup_ge_None in Hg. lia.
Qed.

Lemma pending_burst_runs_witness :
  ∃ sys', execAction workflowsDB (RunGoroutine 1) decidedTwiceSystem = Some sys' ∧
          length (goroutines sys') = length (goroutines decidedTwiceSystem) - 1 ∧
          ordersDB (state sys') = ordersDB (state decidedTwiceSystem).
Proof.
  apply (pending_burst_runs workflowsDB decidedTwiceSystem 1).
  - exists [PostCreateOrder (Some sampleOrder); RunGoroutine 0;
            PostAcceptDCC (Some (mkDCCResponse "order-1" true 85 "BRL"));
            PostAcceptDCC (Some (mkDCCResponse "order-1" true 1 "EUR"))].
    vm_compute. reflexivity.
  - vm_compute. lia.
Defined.


(** ** One order's bursts and another order's instance *)

Lemma acceptDCCHandler_registry (st : State) (body : option DCCResponse) :
  workflowInstances (acceptDCCHandler st body).1.1 = workflowInstances st.
Proof.
  destruct body as [response|]; [|reflexivity]. unfold acceptDCCHandler.
  pose proof (applyDecision_frame st response) as [Hreg _].
  destruct (applyDecision st response) as [st1 order]. cbn [fst] in Hreg.
  destruct (workflowInstances st1 !! RespOrderID response); exact Hreg.
Qed.






(** X15. On a reachable server the id that the next [createOrder] will
    assign has no registered instance, so that line 102 never replaces the
    instance of a workflow in progress. *)
Theorem next_id_unregistered (db : list Workflow) (sys : System) :
  reachable db sys →
  workflowInstances (state sys)
    !! fmtOrderID (size (ordersDB (state sys)) + 1) = None.
Proof.
  intros Hr. destruct (reachable_inv db sys Hr) as [HI _].
  pose proof (reachable_RegInv db sys Hr) as HR.
  destruct (workflowInstances (state sys) !! _) as [p|] eqn:Hp; [|reflexivity].
  destruct (reg_order db _ HR _ p Hp) as (o & _ & Ho & _).
  rewrite (next_id_fresh _ HI) in Ho. discriminate.
Qed.

Lemma next_id_unregistered_witness :
  workflowInstances (state waitingSystem)
    !! fmtOrderID (size (ordersDB (state waitingSystem)) + 1) = None.
Proof.
  apply (next_id_unregistered workflowsDB waitingSystem).
  exists [PostCreateOrder (Some sampleOrder); RunGoroutine 0].
  vm_compute. reflexivity.
Defined.

(** X16. A decision request never adds or removes an order: whatever the
    request, the handler leaves the set of stored ids as it was, and it
    never changes the registry or the heap itself. *)
Theorem decision_keeps_store_ids (st : State) (body : option DCCResponse) :
  dom (ordersDB (acceptDCCHandler st body).1.1) = dom (ordersDB st) ∧
  workflowInstances (acceptDCCHandler st body).1.1 = workflowInstances st ∧
  heap (acceptDCCHandler st body).1.1 = heap st.
Proof.
  split; [|split; [apply acceptDCCHandler_registry|]].
  - rewrite acceptDCCHandler_ordersDB. destruct body as [r|]; [|reflexivity].
    destruct (ordersDB st !! RespOrderID r) as [o|] eqn:Ho; [|reflexivity].
    rewrite dom_insert_L. apply subseteq_union_1_L, singleton_subseteq_l.
    apply elem_of_dom. eauto.
  - destruct body as [response|]; [|reflexivity]. unfold acceptDCCHandler.
    pose proof (applyDecision_frame st response) as [_ Hheap].
    destruct (applyDecision st response) as [st1 order]. cbn [fst] in Hheap.
    destruct (workflowInstances st1 !! RespOrderID response); exact Hheap.
Qed.
